(** * Tapo C225 PTZ controller and multi-camera manager

    A shallow embedding of [tapo_c225_controller.py] and
    [tapo_multi_camera.py].  The Python methods become functions in a small
    state-and-exception monad over a [World] that records every call made
    on the external [pytapo] client, every [time.sleep], the JSON files on
    disk and the report lines the manager prints.

    The camera itself is outside the program: its answers are given by an
    oracle [env] that maps the history of calls so far and the call being
    made to a returned value or a raised exception.  Every theorem
    quantifies over that oracle. *)

From Stdlib Require Import ZArith String List Lia.
From stdpp Require Import base option list strings gmap.
Import ListNotations.

Local Open Scope string_scope.
Local Open Scope Z_scope.
Local Open Scope list_scope.

(** ** Python values

    The values that cross the boundary of the program: what [pytapo]
    returns and what [json.load] yields.  Floats do not occur in the code
    paths modelled here and are left out.  A [VDict] keeps its items in
    insertion order, like a Python dict. *)

#[warnings="-register-all"]
Inductive pyval : Type :=
| VNone
| VBool (b : bool)
| VInt (n : Z)
| VStr (s : string)
| VList (l : list pyval)
| VDict (d : list (string * pyval)).

(** ** Insertion-ordered dictionaries with string keys *)

Module Dict.
Section Dict.
Context {A : Type}.

Fixpoint get (d : list (string * A)) (k : string) : option A :=
  match d with
  | [] => None
  | (k', v) :: rest => if String.eqb k' k then Some v else get rest k
  end.

(** [d[k] = v]: an existing key keeps its position, a new key goes last. *)
Fixpoint set (d : list (string * A)) (k : string) (v : A) : list (string * A) :=
  match d with
  | [] => [(k, v)]
  | (k', v') :: rest =>
      if String.eqb k' k then (k, v) :: rest else (k', v') :: set rest k v
  end.

Fixpoint del (d : list (string * A)) (k : string) : list (string * A) :=
  match d with
  | [] => []
  | (k', v') :: rest =>
      if String.eqb k' k then rest else (k', v') :: del rest k
  end.

Definition keys (d : list (string * A)) : list string := map fst d.

Definition mem (d : list (string * A)) (k : string) : bool :=
  match get d k with Some _ => true | None => false end.
End Dict.
End Dict.

(** ** Exceptions *)

Inductive exn : Type :=
| ValueError (msg : string)
| AttributeError
| TypeError
| KeyError (key : string)
| FileNotFoundError
| JSONDecodeError
| DeviceException (msg : string)   (* any [Exception] raised inside pytapo *)
| KeyboardInterrupt.

(** [except Exception] catches everything but [KeyboardInterrupt], which
    derives from [BaseException] only. *)
Definition is_Exception (e : exn) : bool :=
  match e with
  | KeyboardInterrupt => false
  | _ => true
  end.

(** ** Calls on the pytapo client, events, files, report lines *)

Inductive call : Type :=
| Tapo_init (user password : string)      (* Tapo(host, user, password) *)
| getBasicInfo
| getMotorCapability
| getPrivacyMode
| setPrivacyMode (enabled : bool)
| moveMotor (x y : Z)
| moveMotorStep (angle : Z)
| getPresets
| savePreset (name : string)
| setPreset (preset_id : string)
| deletePreset (preset_id : string)
| calibrateMotor
| setAutoTrackTarget (enabled : bool).

Inductive event : Type :=
| EDevice (host : string) (c : call)
| ESleep (seconds : Z).

Inductive resp : Type :=
| Ret (v : pyval)
| Throw (e : exn).

(** What a file holds: a JSON document, given by the value [json.load]
    returns for it, or text that is not JSON. *)
Inductive file : Type :=
| FJson (v : pyval)
| FText.

(** The lines printed by [apply_scene] and [list_scenes], kept structured. *)
Inductive output : Type :=
| OutScenesFileMissing
| OutSceneMissing (scene_name : string)
| OutApplyScene (scene_name : string)
| OutPresetOk (cam_id : string) (preset_id : pyval)
| OutPresetFailed (cam_id : string) (e : exn)
| OutNotConnected (cam_id : string)
| OutScenesHeader (count : nat)
| OutSceneName (scene_name : string)
| OutScenePair (cam_id : string) (preset_id : pyval)
| OutNoScenes.

Record World : Type := mkWorld {
  trace : list event;
  files : gmap string file;
  stdout : list output
}.

Inductive outcome (A : Type) : Type :=
| Ok (a : A)
| Raise (e : exn).
Arguments Ok {A} a.
Arguments Raise {A} e.

(** ** Operations on Python values used by the program *)

(** [v.get(key, default)] *)
Definition py_get (v : pyval) (key : string) (default : pyval) : outcome pyval :=
  match v with
  | VDict d => Ok (match Dict.get d key with Some x => x | None => default end)
  | _ => Raise AttributeError
  end.

(** [len(v)] *)
Definition py_len (v : pyval) : outcome nat :=
  match v with
  | VDict d => Ok (length d)
  | VList l => Ok (length l)
  | VStr s => Ok (String.length s)
  | _ => Raise TypeError
  end.

(** [v.items()] *)
Definition py_items (v : pyval) : outcome (list (string * pyval)) :=
  match v with
  | VDict d => Ok d
  | _ => Raise AttributeError
  end.

(** [needle in hay] for two strings: substring test. *)
Fixpoint is_substring (needle hay : string) : bool :=
  if String.prefix needle hay then true
  else match hay with
       | EmptyString => false
       | String _ rest => is_substring needle rest
       end.

Definition is_VStr (key : string) (v : pyval) : bool :=
  match v with
  | VStr s => String.eqb s key
  | _ => false
  end.

(** [key in v] for a string [key] *)
Definition py_contains (v : pyval) (key : string) : outcome bool :=
  match v with
  | VDict d => Ok (Dict.mem d key)
  | VList l => Ok (existsb (is_VStr key) l)
  | VStr s => Ok (is_substring key s)
  | _ => Raise TypeError
  end.

(** [v[key]] for a string [key] *)
Definition py_getitem (v : pyval) (key : string) : outcome pyval :=
  match v with
  | VDict d =>
      match Dict.get d key with
      | Some x => Ok x
      | None => Raise (KeyError key)
      end
  | _ => Raise TypeError
  end.

(** [v[key] = x] for a string [key] *)
Definition py_setitem (v : pyval) (key : string) (x : pyval) : outcome pyval :=
  match v with
  | VDict d => Ok (VDict (Dict.set d key x))
  | _ => Raise TypeError
  end.

(** [v == "on"] and the like: only a string equals a string. *)
Definition py_eq_str (v : pyval) (s : string) : bool := is_VStr s v.

(** A [Dict[str, str]] argument as a Python value. *)
Definition str_items (m : list (string * string)) : list (string * pyval) :=
  map (fun kv => (fst kv, VStr (snd kv))) m.

Definition str_dict (m : list (string * string)) : pyval :=
  VDict (str_items m).

(** ** The monad: state passing over [World], with exceptions *)

Definition M (A : Type) : Type := World -> outcome A * World.

Definition ret {A} (a : A) : M A := fun w => (Ok a, w).

Definition raise {A} (e : exn) : M A := fun w => (Raise e, w).

Definition bind {A B} (m : M A) (k : A -> M B) : M B := fun w =>
  match m w with
  | (Ok a, w') => k a w'
  | (Raise e, w') => (Raise e, w')
  end.

Definition lift {A} (o : outcome A) : M A := fun w => (o, w).

Declare Scope py_scope.
Delimit Scope py_scope with py.
Notation "'let!' x ':=' m 'in' k" := (bind m (fun x => k))
  (at level 10, x name, m at level 100, k at level 200) : py_scope.
Notation "m ;; k" := (bind m (fun _ => k))
  (at level 100, k at level 200, right associativity) : py_scope.
Local Open Scope py_scope.

(** The world after the lines [out] have been printed. *)
Definition printed (w : World) (out : list output) : World :=
  mkWorld (trace w) (files w) (stdout w ++ out).

(** The world after the events [evs] have been recorded. *)
Definition logged (w : World) (evs : list event) : World :=
  mkWorld (trace w ++ evs) (files w) (stdout w).

Definition print (line : output) : M unit := fun w =>
  (Ok tt, printed w [line]).

(** [for x in xs: body x] *)
Fixpoint for_each {A} (xs : list A) (body : A -> M unit) : M unit :=
  match xs with
  | [] => ret tt
  | x :: rest => body x ;; for_each rest body
  end.

(** ** Files

    [open(name, 'r')] on a missing file raises [FileNotFoundError];
    [json.load] raises on text that is not JSON.  [open(name, 'w')]
    followed by [json.dump] replaces the content; the disk is taken to be
    writable. *)

Definition json_load (filename : string) : M pyval := fun w =>
  match files w !! filename with
  | None => (Raise FileNotFoundError, w)
  | Some (FJson v) => (Ok v, w)
  | Some FText => (Raise JSONDecodeError, w)
  end.

Definition json_dump (v : pyval) (filename : string) : M unit := fun w =>
  (Ok tt, mkWorld (trace w) (<[filename := FJson v]> (files w)) (stdout w)).

(** [try: m except <class> as e: h e], the class given by [catches]. *)
Definition try_except {A} (m : M A) (catches : exn -> bool) (h : exn -> M A) : M A :=
  fun w =>
    match m w with
    | (Ok a, w') => (Ok a, w')
    | (Raise e, w') => if catches e then h e w' else (Raise e, w')
    end.

Definition is_FileNotFoundError (e : exn) : bool :=
  match e with
  | FileNotFoundError => true
  | _ => false
  end.

Definition is_KeyboardInterrupt (e : exn) : bool :=
  match e with
  | KeyboardInterrupt => true
  | _ => false
  end.

(** ** The objects of the program *)

(** A [pytapo.Tapo] client object, bound to the target it was built for. *)
Record Tapo : Type := mkTapo {
  tapo_host : string;
  tapo_user : string;
  tapo_password : string
}.

Record TapoC225Controller : Type := mkController {
  host : string;
  user : string;
  password : string;
  tapo : option Tapo;
  motor_capability : option pyval
}.

Record TapoMultiCameraManager : Type := mkManager {
  cameras : list (string * TapoC225Controller);
  config_file : string
}.

(** [TapoC225Controller(host, user, password)] *)
Definition new_controller (h u p : string) : TapoC225Controller :=
  mkController h u p None None.

(** [TapoMultiCameraManager()] *)
Definition new_manager : TapoMultiCameraManager :=
  mkManager [] "cameras_config.json".

Definition scenes_file : string := "scenes.json".

(** ** Example worlds, cameras and registries

    Concrete environments for the witnesses and counterexamples at the end
    of the file. *)

Definition world0 : World := mkWorld [] ∅ [].

(** A camera that answers every call, its privacy mode being on. *)
Definition env_privacy_on : list event -> event -> resp := fun _ ev =>
  match ev with
  | EDevice _ getPrivacyMode => Ret (VDict [("enabled", VStr "on")])
  | EDevice _ _ => Ret (VDict [])
  | ESleep _ => Ret VNone
  end.

(** A camera that answers every call, its privacy mode being off. *)
Definition env_privacy_off : list event -> event -> resp := fun _ ev =>
  match ev with
  | EDevice _ getPrivacyMode => Ret (VDict [("enabled", VStr "off")])
  | EDevice _ _ => Ret (VDict [])
  | ESleep _ => Ret VNone
  end.

(** Privacy mode is on and the camera refuses to switch it off. *)
Definition env_privacy_write_fails : list event -> event -> resp := fun _ ev =>
  match ev with
  | EDevice _ getPrivacyMode => Ret (VDict [("enabled", VStr "on")])
  | EDevice _ (setPrivacyMode _) => Throw (DeviceException "privacy write refused")
  | EDevice _ _ => Ret (VDict [])
  | ESleep _ => Ret VNone
  end.

(** The privacy state cannot be read. *)
Definition env_privacy_read_fails : list event -> event -> resp := fun _ ev =>
  match ev with
  | EDevice _ getPrivacyMode => Throw (DeviceException "privacy read timed out")
  | EDevice _ _ => Ret (VDict [])
  | ESleep _ => Ret VNone
  end.

(** Every host answers but [down], which is unreachable. *)
Definition env_host_down (down : string) : list event -> event -> resp := fun _ ev =>
  match ev with
  | EDevice h c =>
      if String.eqb h down then Throw (DeviceException "host unreachable")
      else match c with
           | getPrivacyMode => Ret (VDict [("enabled", VStr "off")])
           | _ => Ret (VDict [])
           end
  | ESleep _ => Ret VNone
  end.

(** Every call is answered but [setPreset failing], which raises. *)
Definition env_preset_fails (failing : string) : list event -> event -> resp :=
  fun _ ev =>
    match ev with
    | EDevice _ getPrivacyMode => Ret (VDict [("enabled", VStr "off")])
    | EDevice _ (setPreset p) =>
        if String.eqb p failing then Throw (DeviceException "preset not found")
        else Ret (VDict [])
    | EDevice _ _ => Ret (VDict [])
    | ESleep _ => Ret VNone
    end.

(** The constructor returns but the camera gives no basic info. *)
Definition env_basic_info_fails : list event -> event -> resp := fun _ ev =>
  match ev with
  | EDevice _ getBasicInfo => Throw (DeviceException "basic info refused")
  | EDevice _ _ => Ret (VDict [])
  | ESleep _ => Ret VNone
  end.

(** A camera without a motor: everything is answered but
    [getMotorCapability]. *)
Definition env_motor_capability_fails : list event -> event -> resp := fun _ ev =>
  match ev with
  | EDevice _ getMotorCapability => Throw (DeviceException "no motor")
  | EDevice _ getPrivacyMode => Ret (VDict [("enabled", VStr "off")])
  | EDevice _ _ => Ret (VDict [])
  | ESleep _ => Ret VNone
  end.


(** [add_camera] on ill-typed config values, for the examples: refuse. *)
Definition untyped_refuses
    : TapoMultiCameraManager -> string -> pyval -> pyval -> string ->
      M (bool * TapoMultiCameraManager) :=
  fun _ _ _ _ _ => raise TypeError.

Definition world_corrupt_scenes : World :=
  mkWorld [] {[ scenes_file := FText ]} [].

Definition world_config_without_host : World :=
  mkWorld []
    {[ "cameras_config.json" :=
         FJson (VDict [("entrance", VDict [("host", VStr "192.168.1.101");
                                          ("user", VStr "admin")]);
                       ("warehouse", VDict [("user", VStr "admin")])]) ]}
    [].

(** The camera at 192.168.1.101 has one preset; the one at 192.168.1.103
    is unreachable. *)
Definition env_one_answers_presets : list event -> event -> resp := fun _ ev =>
  match ev with
  | EDevice h c =>
      if String.eqb h "192.168.1.103" then Throw (DeviceException "host unreachable")
      else match c with
           | getPresets => Ret (VDict [("1", VStr "door")])
           | getPrivacyMode => Ret (VDict [("enabled", VStr "off")])
           | _ => Ret (VDict [])
           end
  | ESleep _ => Ret VNone
  end.

(** The examples pass preset ids as strings only, so [str] of other
    values is never asked for. *)
Definition repr_unused : pyval -> string := fun _ => "".

(** The session [add_camera] registers for a host that answers with empty
    dicts. *)
Definition session (h pw : string) : TapoC225Controller :=
  mkController h "admin" pw (Some (mkTapo h "admin" pw)) (Some (VDict [])).

Definition entrance_only : TapoMultiCameraManager :=
  mkManager [("entrance", session "192.168.1.101" "secret")] "cameras_config.json".

Definition cams_A_C : TapoMultiCameraManager :=
  mkManager [("A", session "192.168.1.101" "secret");
             ("C", session "192.168.1.103" "secret")] "cameras_config.json".

Definition world_with_scene : World :=
  mkWorld []
    {[ scenes_file :=
         FJson (VDict [("day", str_dict [("A", "1"); ("B", "2"); ("C", "3")])]) ]}
    [].

Section Program.

Set Default Proof Using "Type".

(** The camera side: given the calls made so far, the answer to the next. *)
Variable env : list event -> event -> resp.

(** [str(v)] for a value that is not a string. *)
Variable py_repr : pyval -> string.

Definition py_str (v : pyval) : string :=
  match v with
  | VStr s => s
  | _ => py_repr v
  end.

Definition perform (ev : event) : M pyval := fun w =>
  match env (trace w) ev with
  | Ret v => (Ok v, logged w [ev])
  | Throw e => (Raise e, logged w [ev])
  end.

(** [time.sleep(seconds)]: a negative length is refused at once. *)
Definition sleep (seconds : Z) : M unit :=
  if seconds <? 0 then raise (ValueError "sleep length must be non-negative")
  else (let! _ := perform (ESleep seconds) in ret tt).

(** [self.tapo.<c>]: on [None] the attribute access fails. *)
Definition tapo_call (self : TapoC225Controller) (c : call) : M pyval :=
  match tapo self with
  | None => raise AttributeError
  | Some t => perform (EDevice (tapo_host t) c)
  end.

(** *** tapo_c225_controller.py *)

Definition _get_motor_capability (self : TapoC225Controller) : M TapoC225Controller :=
  try_except
    (let! result := tapo_call self getMotorCapability in
     let! motor := lift (py_get result "motor" (VDict [])) in
     let! capability := lift (py_get motor "capability" (VDict [])) in
     let self' := mkController (host self) (user self) (password self)
                               (tapo self) (Some capability) in
     (* the two prints read the capability; the field is already set *)
     try_except
       (let! _ := lift (py_get capability "x_coord_min" VNone) in
        let! _ := lift (py_get capability "x_coord_max" VNone) in
        let! _ := lift (py_get capability "y_coord_min" VNone) in
        let! _ := lift (py_get capability "y_coord_max" VNone) in
        ret self')
       is_Exception (fun _ => ret self'))
    is_Exception (fun _ => ret self).

Definition connect (self : TapoC225Controller) : M (bool * TapoC225Controller) :=
  try_except
    (let! _ := perform (EDevice (host self) (Tapo_init (user self) (password self))) in
     let self1 := mkController (host self) (user self) (password self)
                    (Some (mkTapo (host self) (user self) (password self)))
                    (motor_capability self) in
     try_except
       (let! basic_info := tapo_call self1 getBasicInfo in
        let! d := lift (py_get basic_info "device_info" (VDict [])) in
        let! device_info := lift (py_get d "basic_info" (VDict [])) in
        let! _ := lift (py_get device_info "device_model" (VStr "Unknown")) in
        let! _ := lift (py_get device_info "sw_version" (VStr "Unknown")) in
        let! self2 := _get_motor_capability self1 in
        ret (true, self2))
       is_Exception (fun _ => ret (false, self1)))
    is_Exception (fun _ => ret (false, self)).

Definition ensure_privacy_mode_off (self : TapoC225Controller) : M bool :=
  try_except
    (let! privacy := tapo_call self getPrivacyMode in
     let! enabled := lift (py_get privacy "enabled" VNone) in
     (if py_eq_str enabled "on"
      then (let! _ := tapo_call self (setPrivacyMode false) in sleep 1)
      else ret tt) ;;
     ret true)
    is_Exception (fun _ => ret false).

Definition move (self : TapoC225Controller) (x y : Z) : M pyval :=
  let! _ := ensure_privacy_mode_off self in
  tapo_call self (moveMotor x y).

Definition move_left (self : TapoC225Controller) (amount : Z) : M pyval :=
  move self (- amount) 0.

Definition move_right (self : TapoC225Controller) (amount : Z) : M pyval :=
  move self amount 0.

Definition move_up (self : TapoC225Controller) (amount : Z) : M pyval :=
  move self 0 amount.

Definition move_down (self : TapoC225Controller) (amount : Z) : M pyval :=
  move self 0 (- amount).

Definition move_step (self : TapoC225Controller) (angle : Z) : M pyval :=
  if negb ((0 <=? angle) && (angle <? 360))
  then raise (ValueError "角度必須在 0-359 之間")
  else (let! _ := ensure_privacy_mode_off self in
        tapo_call self (moveMotorStep angle)).

Definition save_preset (self : TapoC225Controller) (name : string) : M pyval :=
  let! _ := ensure_privacy_mode_off self in
  tapo_call self (savePreset name).

Definition goto_preset (self : TapoC225Controller) (preset_id : pyval) : M pyval :=
  let! _ := ensure_privacy_mode_off self in
  tapo_call self (setPreset (py_str preset_id)).

Definition delete_preset (self : TapoC225Controller) (preset_id : string) : M pyval :=
  tapo_call self (deletePreset preset_id).

Definition calibrate (self : TapoC225Controller) : M pyval :=
  tapo_call self calibrateMotor.

Definition set_auto_track (self : TapoC225Controller) (enabled : bool) : M unit :=
  let! _ := tapo_call self (setAutoTrackTarget enabled) in ret tt.

Definition enable_privacy_mode (self : TapoC225Controller) : M unit :=
  let! _ := tapo_call self (setPrivacyMode true) in ret tt.

Definition disable_privacy_mode (self : TapoC225Controller) : M unit :=
  let! _ := tapo_call self (setPrivacyMode false) in ret tt.

(** The body of the [for] loop of [start_patrol]. *)
Definition patrol_visit (self : TapoC225Controller) (interval_seconds : Z)
    (preset_id : pyval) : M unit :=
  let! _ := goto_preset self preset_id in
  sleep interval_seconds.

(** One pass of [for preset_id in preset_ids] in [start_patrol]. *)
Definition patrol_pass (self : TapoC225Controller) (preset_ids : list pyval)
    (interval_seconds : Z) : M unit :=
  for_each preset_ids (patrol_visit self interval_seconds).

(** [while True:] of [start_patrol], run for at most [fuel] passes;
    [None] means the loop is still running when the fuel is spent. *)
Fixpoint patrol_loop (fuel : nat) (self : TapoC225Controller)
    (preset_ids : list pyval) (interval_seconds : Z) (w : World)
    : option (outcome unit) * World :=
  match fuel with
  | O => (None, w)
  | S fuel' =>
      match patrol_pass self preset_ids interval_seconds w with
      | (Ok _, w') => patrol_loop fuel' self preset_ids interval_seconds w'
      | (Raise e, w') => (Some (Raise e), w')
      end
  end.

Definition start_patrol (fuel : nat) (self : TapoC225Controller)
    (preset_ids : list pyval) (interval_seconds : Z) (w : World)
    : option (outcome unit) * World :=
  match patrol_loop fuel self preset_ids interval_seconds w with
  | (Some (Raise e), w') =>
      if is_KeyboardInterrupt e then (Some (Ok tt), w')
      else (Some (Raise e), w')
  | r => r
  end.

(** *** tapo_multi_camera.py *)

Definition add_camera (self : TapoMultiCameraManager)
    (camera_id h u p : string) : M (bool * TapoMultiCameraManager) :=
  let controller := new_controller h u p in
  let! r := connect controller in
  if fst r
  then ret (true, mkManager (Dict.set (cameras self) camera_id (snd r))
                            (config_file self))
  else ret (false, self).

Definition remove_camera (self : TapoMultiCameraManager) (camera_id : string)
    : TapoMultiCameraManager :=
  if Dict.mem (cameras self) camera_id
  then mkManager (Dict.del (cameras self) camera_id) (config_file self)
  else self.

Definition get_camera (self : TapoMultiCameraManager) (camera_id : string)
    : option TapoC225Controller :=
  Dict.get (cameras self) camera_id.

Definition list_cameras (self : TapoMultiCameraManager) : list string :=
  Dict.keys (cameras self).

Definition calibrate_all (self : TapoMultiCameraManager) : M unit :=
  for_each (cameras self) (fun item =>
    try_except (let! _ := calibrate (snd item) in ret tt)
               is_Exception (fun _ => ret tt)).

Definition goto_preset_all (self : TapoMultiCameraManager) (preset_id : pyval)
    : M unit :=
  for_each (cameras self) (fun item =>
    try_except (let! _ := goto_preset (snd item) preset_id in ret tt)
               is_Exception (fun _ => ret tt)).

(** The body of the loop of [get_all_presets]: the dict with the entry
    of [cam_id] stored. *)
Definition get_all_presets_entry (all_presets : list (string * pyval))
    (cam_id : string) (ctrl : TapoC225Controller) : M (list (string * pyval)) :=
  try_except
    (let! presets := tapo_call ctrl getPresets in
     let stored := Dict.set all_presets cam_id presets in
     (* the print takes [len(presets)] after the entry is stored *)
     try_except
       (let! _ := lift (py_len presets) in ret stored)
       is_Exception (fun _ => ret (Dict.set stored cam_id (VDict []))))
    is_Exception (fun _ => ret (Dict.set all_presets cam_id (VDict []))).

(** The loop of [get_all_presets], threading the dict being filled. *)
Fixpoint get_all_presets_loop (items : list (string * TapoC225Controller))
    (all_presets : list (string * pyval)) : M (list (string * pyval)) :=
  match items with
  | [] => ret all_presets
  | (cam_id, ctrl) :: rest =>
      let! all_presets' := get_all_presets_entry all_presets cam_id ctrl in
      get_all_presets_loop rest all_presets'
  end.

Definition get_all_presets (self : TapoMultiCameraManager)
    : M (list (string * pyval)) :=
  get_all_presets_loop (cameras self) [].

Definition create_scene (scene_name : string)
    (camera_presets : list (string * string)) : M unit :=
  let! scenes := try_except (json_load scenes_file)
                            is_FileNotFoundError (fun _ => ret (VDict [])) in
  let! scenes' := lift (py_setitem scenes scene_name (str_dict camera_presets)) in
  json_dump scenes' scenes_file.

(** The body of the loop of [apply_scene]. *)
Definition apply_scene_entry (self : TapoMultiCameraManager)
    (cam_id : string) (preset_id : pyval) : M unit :=
  match Dict.get (cameras self) cam_id with
  | Some ctrl =>
      try_except
        (let! _ := goto_preset ctrl preset_id in
         print (OutPresetOk cam_id preset_id))
        is_Exception (fun e => print (OutPresetFailed cam_id e))
  | None => print (OutNotConnected cam_id)
  end.

Definition apply_scene (self : TapoMultiCameraManager) (scene_name : string)
    : M unit :=
  let! loaded :=
    try_except (let! scenes := json_load scenes_file in ret (Some scenes))
               is_FileNotFoundError
               (fun _ => print OutScenesFileMissing ;; ret None) in
  match loaded with
  | None => ret tt
  | Some scenes =>
      let! present := lift (py_contains scenes scene_name) in
      if negb present then print (OutSceneMissing scene_name)
      else
        print (OutApplyScene scene_name) ;;
        let! camera_presets := lift (py_getitem scenes scene_name) in
        let! items := lift (py_items camera_presets) in
        for_each items (fun item =>
          apply_scene_entry self (fst item) (snd item))
  end.

Definition list_scenes : M (list string) :=
  try_except
    (let! scenes := json_load scenes_file in
     let! n := lift (py_len scenes) in
     print (OutScenesHeader n) ;;
     let! items := lift (py_items scenes) in
     for_each items (fun item =>
       print (OutSceneName (fst item)) ;;
       let! pairs := lift (py_items (snd item)) in
       for_each pairs (fun pair => print (OutScenePair (fst pair) (snd pair)))) ;;
     ret (Dict.keys items))
    is_FileNotFoundError (fun _ => print OutNoScenes ;; ret []).

(** The dict [save_config] builds: per camera its host and user. *)
Definition config_entry (ctrl : TapoC225Controller) : pyval :=
  VDict [("host", VStr (host ctrl)); ("user", VStr (user ctrl))].

Definition build_config (items : list (string * TapoC225Controller))
    : list (string * pyval) :=
  fold_left (fun config item => Dict.set config (fst item) (config_entry (snd item)))
            items [].

Definition save_config (self : TapoMultiCameraManager) (filename : option string)
    : M unit :=
  let filename := match filename with
                  | None => config_file self
                  | Some f => f
                  end in
  json_dump (VDict (build_config (cameras self))) filename.

(** *** The positional operations as one family

    [run_op] dispatches to the method, [op_call] is the pytapo call the
    method ends in. *)

Inductive ptz_op : Type :=
| OpMove (x y : Z)
| OpMoveStep (angle : Z)
| OpGotoPreset (preset_id : pyval)
| OpSavePreset (name : string)
| OpCalibrate.

Definition run_op (self : TapoC225Controller) (op : ptz_op) : M pyval :=
  match op with
  | OpMove x y => move self x y
  | OpMoveStep angle => move_step self angle
  | OpGotoPreset preset_id => goto_preset self preset_id
  | OpSavePreset name => save_preset self name
  | OpCalibrate => calibrate self
  end.

Definition op_call (op : ptz_op) : call :=
  match op with
  | OpMove x y => moveMotor x y
  | OpMoveStep angle => moveMotorStep angle
  | OpGotoPreset preset_id => setPreset (py_str preset_id)
  | OpSavePreset name => savePreset name
  | OpCalibrate => calibrateMotor
  end.

(** The argument check of the operation: only [move_step] has one. *)
Definition op_accepts (op : ptz_op) : Prop :=
  match op with
  | OpMoveStep angle => 0 <= angle < 360
  | _ => True
  end.

(** The environment raises nothing but [Exception]s: no
    [KeyboardInterrupt] arrives during the run. *)
Definition only_Exceptions : Prop :=
  forall (h : list event) (ev : event) (e : exn),
    env h ev = Throw e -> is_Exception e = true.

(** What a call returns to the program, given the camera's answer. *)
Definition answer (r : resp) : outcome pyval :=
  match r with
  | Ret v => Ok v
  | Throw e => Raise e
  end.

(** *** Vocabulary for the patrol *)

(** The camera answers every call and every sleep returns. *)
Definition env_reliable : Prop :=
  forall (h : list event) (ev : event), exists v, env h ev = Ret v.

(** What the guard records when nothing raises: the read alone, or the
    read, the write and the settle delay. *)
Definition guard_trace (h : string) (g : list event) : Prop :=
  g = [EDevice h getPrivacyMode]
  \/ g = [EDevice h getPrivacyMode; EDevice h (setPrivacyMode false); ESleep 1].

(** The trace of a patrol that visits [visits] in order: per visit the
    guard, then [setPreset], then the dwell. *)
Inductive patrol_trace (h : string) (interval_seconds : Z)
    : list pyval -> list event -> Prop :=
| patrol_trace_nil : patrol_trace h interval_seconds [] []
| patrol_trace_step preset_id visits g t :
    guard_trace h g ->
    patrol_trace h interval_seconds visits t ->
    patrol_trace h interval_seconds (preset_id :: visits)
      (g ++ [EDevice h (setPreset (py_str preset_id)); ESleep interval_seconds] ++ t).

(** *** Vocabulary for the manager *)

(** What [save_config] may depend on: ids, hosts and users, in order. *)
Definition public_view (items : list (string * TapoC225Controller))
    : list (string * (string * string)) :=
  map (fun item => (fst item, (host (snd item), user (snd item)))) items.

(** *** Postconditions

    [returns m P]: whenever [m] returns normally, its value satisfies [P].
    [catches_all m]: [m] lets nothing through but what [except Exception]
    lets through. *)

Definition returns {A} (m : M A) (P : A -> Prop) : Prop :=
  forall w, match m w with
            | (Ok a, _) => P a
            | (Raise _, _) => True
            end.

Definition catches_all {A} (m : M A) : Prop :=
  forall w, match m w with
            | (Ok _, _) => True
            | (Raise e, _) => is_Exception e = false
            end.

(** Two controllers aim at the same target with the same credentials. *)
Definition same_target (c c' : TapoC225Controller) : Prop :=
  host c' = host c /\ user c' = user c /\ password c' = password c.

(** *** Vocabulary for the scenes *)

(** The scene document as [create_scene] takes it: a missing file counts
    as no scenes, a JSON object as its items; anything else is not a
    scene document. *)
Definition scenes_doc (w : World) : option (list (string * pyval)) :=
  match files w !! scenes_file with
  | None => Some []
  | Some (FJson (VDict d)) => Some d
  | Some _ => None
  end.

Definition is_dict (v : pyval) : Prop := exists d, v = VDict d.

(** The lines [list_scenes] prints for one scene. *)
Definition scene_lines (name : string) (pairs : list (string * pyval)) : list output :=
  OutSceneName name :: map (fun pair => OutScenePair (fst pair) (snd pair)) pairs.

(** The [setPreset] calls of a trace, as (host, preset id). *)
Definition goto_calls (tr : list event) : list (string * string) :=
  flat_map (fun ev => match ev with
                      | EDevice h (setPreset preset_id) => [(h, preset_id)]
                      | _ => []
                      end) tr.

(** The cameras reported as not connected, and all cameras reported on. *)
Definition not_connected_reports (out : list output) : list string :=
  flat_map (fun line => match line with
                        | OutNotConnected cam_id => [cam_id]
                        | _ => []
                        end) out.

Definition device_reports (out : list output) : list string :=
  flat_map (fun line => match line with
                        | OutPresetOk cam_id _ => [cam_id]
                        | OutPresetFailed cam_id _ => [cam_id]
                        | OutNotConnected cam_id => [cam_id]
                        | _ => []
                        end) out.

(** What a scene asks of the registry: a [setPreset] on the session of
    each camera that is registered, a skip for each that is not. *)
Definition expected_gotos (cams : list (string * TapoC225Controller))
    (m : list (string * string)) : list (string * string) :=
  flat_map (fun kv => match Dict.get cams (fst kv) with
                      | Some ctrl =>
                          match tapo ctrl with
                          | Some t => [(tapo_host t, snd kv)]
                          | None => []
                          end
                      | None => []
                      end) m.

Definition expected_skips (cams : list (string * TapoC225Controller))
    (m : list (string * string)) : list string :=
  flat_map (fun kv => if Dict.mem cams (fst kv) then [] else [fst kv]) m.

(** *** More of tapo_multi_camera.py *)

Definition enable_privacy_all (self : TapoMultiCameraManager) : M unit :=
  for_each (cameras self) (fun item =>
    try_except (enable_privacy_mode (snd item)) is_Exception (fun _ => ret tt)).

Definition disable_privacy_all (self : TapoMultiCameraManager) : M unit :=
  for_each (cameras self) (fun item =>
    try_except (disable_privacy_mode (snd item)) is_Exception (fun _ => ret tt)).

Definition set_auto_track_all (self : TapoMultiCameraManager) (enabled : bool)
    : M unit :=
  for_each (cameras self) (fun item =>
    try_except (set_auto_track (snd item) enabled) is_Exception (fun _ => ret tt)).

(** [load_config] hands [add_camera] whatever the document holds under
    "host" and "user".  The signature of [add_camera] asks for strings;
    what the call does on other values is decided inside pytapo and is
    taken as the parameter [untyped]. *)
Definition add_camera_from_config
    (untyped : TapoMultiCameraManager -> string -> pyval -> pyval -> string ->
               M (bool * TapoMultiCameraManager))
    (self : TapoMultiCameraManager)
    (camera_id : string) (h u : pyval) (p : string)
    : M (bool * TapoMultiCameraManager) :=
  match h, u with
  | VStr h', VStr u' => add_camera self camera_id h' u' p
  | _, _ => untyped self camera_id h u p
  end.

(** The loop of [load_config].  The manager is mutated as the loop goes,
    so it is returned beside the outcome: when an entry raises, the
    cameras added before it stay registered. *)
Fixpoint load_config_loop
    (untyped : TapoMultiCameraManager -> string -> pyval -> pyval -> string ->
               M (bool * TapoMultiCameraManager))
    (items : list (string * pyval)) (p : string)
    (self : TapoMultiCameraManager) (w : World)
    : (outcome unit * TapoMultiCameraManager) * World :=
  match items with
  | [] => ((Ok tt, self), w)
  | (cam_id, cam_config) :: rest =>
      match py_getitem cam_config "host" with
      | Raise e => ((Raise e, self), w)
      | Ok h =>
          match py_get cam_config "user" (VStr "admin") with
          | Raise e => ((Raise e, self), w)
          | Ok u =>
              match add_camera_from_config untyped self cam_id h u p w with
              | (Ok r, w') => load_config_loop untyped rest p (snd r) w'
              | (Raise e, w') => ((Raise e, self), w')
              end
          end
      end
  end.

Definition load_config
    (untyped : TapoMultiCameraManager -> string -> pyval -> pyval -> string ->
               M (bool * TapoMultiCameraManager))
    (self : TapoMultiCameraManager) (filename : option string)
    (p : string) (w : World)
    : (outcome unit * TapoMultiCameraManager) * World :=
  let filename := match filename with
                  | None => config_file self
                  | Some f => f
                  end in
  let r :=
    match json_load filename w with
    | (Raise e, w') => ((Raise e, self), w')
    | (Ok config, w') =>
        match py_items config with
        | Raise e => ((Raise e, self), w')
        | Ok items => load_config_loop untyped items p self w'
        end
    end in
  match r with
  | ((Raise e, self'), w') =>
      if is_FileNotFoundError e then ((Ok tt, self'), w') else r
  | _ => r
  end.

(** *** Vocabulary for the added properties *)

(** The answer to [getBasicInfo] that [connect] can read: a dict whose
    "device_info", when present, is a dict whose "basic_info", when
    present, is a dict. *)
Definition basic_info_readable (v : pyval) : Prop :=
  exists info d,
    py_get v "device_info" (VDict []) = Ok info
    /\ py_get info "basic_info" (VDict []) = Ok (VDict d).

(** The client [connect] builds for a controller. *)
Definition client_of (c : TapoC225Controller) : Tapo :=
  mkTapo (host c) (user c) (password c).

(** What [add_camera] keeps true of the registry: ids are unique and each
    session holds the client built for its own target. *)
Definition registry_ok (self : TapoMultiCameraManager) : Prop :=
  NoDup (list_cameras self)
  /\ forall id c, (id, c) ∈ cameras self -> tapo c = Some (client_of c).

(** Every connection attempt succeeds. *)
Definition always_connects : Prop :=
  forall c w, exists c' w', connect c w = (Ok (true, c'), w').

(** One call [c] on the client of each session that has one, in order. *)
Definition batch_calls (cams : list (string * TapoC225Controller)) (c : call)
    : list event :=
  flat_map (fun item => match tapo (snd item) with
                        | Some t => [EDevice (tapo_host t) c]
                        | None => []
                        end) cams.

(** [m] leaves the files alone; [m] leaves the camera alone. *)
Definition keeps_files {A} (m : M A) : Prop :=
  forall w, files (snd (m w)) = files w.

Definition keeps_trace {A} (m : M A) : Prop :=
  forall w, trace (snd (m w)) = trace w.

(** *** Vocabulary for the values of [get_all_presets] *)

(** The answer the client of [c] gives to [getPresets] after the history
    [h]; [None] when [c] holds no client. *)
Definition asked_presets (c : TapoC225Controller) (h : list event) : option resp :=
  match tapo c with
  | Some t => Some (env h (EDevice (tapo_host t) getPresets))
  | None => None
  end.

(** What [get_all_presets] stores for that answer: the value returned
    when it has a length, the empty dict otherwise. *)
Definition stored_presets (a : option resp) : pyval :=
  match a with
  | Some (Ret v) =>
      match py_len v with
      | Ok _ => v
      | Raise _ => VDict []
      end
  | _ => VDict []
  end.

(** ** Basic facts about the monad and the recorded trace *)

Lemma logged_nil (w : World) : logged w [] = w.
Proof. destruct w; unfold logged; simpl; by rewrite app_nil_r. Qed.

Lemma logged_logged (w : World) (a b : list event) :
  logged (logged w a) b = logged w (a ++ b).
Proof. unfold logged; simpl; by rewrite app_assoc. Qed.

Lemma perform_eq (ev : event) (w : World) :
  perform ev w = (answer (env (trace w) ev), logged w [ev]).
Proof. unfold perform, answer; by destruct (env (trace w) ev). Qed.

Lemma tapo_call_connected (self : TapoC225Controller) (t : Tapo) (c : call) (w : World) :
  tapo self = Some t ->
  tapo_call self c w
  = (answer (env (trace w) (EDevice (tapo_host t) c)), logged w [EDevice (tapo_host t) c]).
Proof. intros Ht; unfold tapo_call; rewrite Ht; apply perform_eq. Qed.

(** An angle in range passes the check of [move_step]. *)
Lemma move_step_in_range (self : TapoC225Controller) (angle : Z) (w : World) :
  0 <= angle < 360 ->
  move_step self angle w
  = (let! _ := ensure_privacy_mode_off self in
     tapo_call self (moveMotorStep angle)) w.
Proof.
  intros Hin. unfold move_step.
  assert (((0 <=? angle) && (angle <? 360)) = true) as ->; [|done].
  apply andb_true_intro; split; [apply Z.leb_le|apply Z.ltb_lt]; lia.
Qed.

(** Every guarded operation is the guard followed by its pytapo call. *)
Lemma run_op_guarded (self : TapoC225Controller) (op : ptz_op) (w : World) :
  op <> OpCalibrate -> op_accepts op ->
  run_op self op w
  = (let! _ := ensure_privacy_mode_off self in tapo_call self (op_call op)) w.
Proof.
  intros Hop Hacc; destruct op as [x y|angle|pid|name|]; simpl in *; try done.
  by apply move_step_in_range.
Qed.

(** The guard on a connected controller: it reads the privacy state
    first, and what it does next. *)
Lemma guard_cases (self : TapoC225Controller) (t : Tapo) (w : World) :
  tapo self = Some t ->
  let h := tapo_host t in
  let rd := EDevice h getPrivacyMode in
  let wr := EDevice h (setPrivacyMode false) in
  match env (trace w) rd with
  | Throw e =>
      ensure_privacy_mode_off self w
      = (if is_Exception e then Ok false else Raise e, logged w [rd])
  | Ret privacy =>
      match py_get privacy "enabled" VNone with
      | Raise _ => ensure_privacy_mode_off self w = (Ok false, logged w [rd])
      | Ok enabled =>
          if py_eq_str enabled "on" then
            match env (trace w ++ [rd]) wr with
            | Throw e =>
                ensure_privacy_mode_off self w
                = (if is_Exception e then Ok false else Raise e, logged w [rd; wr])
            | Ret _ =>
                match env (trace w ++ [rd; wr]) (ESleep 1) with
                | Throw e =>
                    ensure_privacy_mode_off self w
                    = (if is_Exception e then Ok false else Raise e,
                       logged w [rd; wr; ESleep 1])
                | Ret _ =>
                    ensure_privacy_mode_off self w
                    = (Ok true, logged w [rd; wr; ESleep 1])
                end
            end
          else ensure_privacy_mode_off self w = (Ok true, logged w [rd])
      end
  end.
Proof.
  intros Ht h rd wr.
  unfold ensure_privacy_mode_off, try_except, bind.
  rewrite (tapo_call_connected self t getPrivacyMode w Ht).
  fold h rd.
  destruct (env (trace w) rd) as [privacy|e]; simpl.
  2:{ by destruct (is_Exception e). }
  unfold lift.
  destruct (py_get privacy "enabled" VNone) as [enabled|e'] eqn:Hget; simpl.
  2:{ destruct privacy; simpl in Hget; try discriminate; by simplify_eq. }
  destruct (py_eq_str enabled "on"); simpl; [|done].
  rewrite (tapo_call_connected self t (setPrivacyMode false) _ Ht).
  fold h wr. simpl.
  destruct (env (trace w ++ [rd]) wr) as [v|e]; simpl.
  2:{ rewrite !logged_logged; simpl. by destruct (is_Exception e). }
  unfold sleep; simpl. unfold bind. rewrite perform_eq. simpl.
  rewrite <- app_assoc; simpl.
  destruct (env (trace w ++ [rd; wr]) (ESleep 1)) as [v'|e]; simpl;
    rewrite !logged_logged; simpl; [done|].
  by destruct (is_Exception e).
Qed.

(** On a connected controller the guard always records the privacy read
    first, and it can only raise what [except Exception] lets through. *)
Lemma guard_shape (self : TapoC225Controller) (t : Tapo) (w : World) :
  tapo self = Some t ->
  exists r g,
    ensure_privacy_mode_off self w
    = (r, logged w (EDevice (tapo_host t) getPrivacyMode :: g))
    /\ (g = [] \/ g = [EDevice (tapo_host t) (setPrivacyMode false)]
        \/ g = [EDevice (tapo_host t) (setPrivacyMode false); ESleep 1])
    /\ (forall e, r = Raise e ->
          is_Exception e = false /\ exists h ev, env h ev = Throw e).
Proof.
  intros Ht. pose proof (guard_cases self t w Ht) as H. simpl in H.
  repeat case_match; rewrite H; clear H;
    (eexists _, _; split; [reflexivity|]);
    (split; [by auto|]); intros e0 He0; simplify_eq;
    split; eauto.
Qed.

Lemma guard_returns (self : TapoC225Controller) (t : Tapo) (w : World) :
  tapo self = Some t -> only_Exceptions ->
  exists b g,
    ensure_privacy_mode_off self w
    = (Ok b, logged w (EDevice (tapo_host t) getPrivacyMode :: g))
    /\ (g = [] \/ g = [EDevice (tapo_host t) (setPrivacyMode false)]
        \/ g = [EDevice (tapo_host t) (setPrivacyMode false); ESleep 1]).
Proof.
  intros Ht Hex. destruct (guard_shape self t w Ht) as (r & g & Hr & Hg & Hraise).
  destruct r as [b|e]; [by eauto|].
  destruct (Hraise e eq_refl) as (Hne & h & ev & Hthrow).
  apply Hex in Hthrow. congruence.
Qed.

Lemma trace_logged_neq (w : World) (ev : event) (evs : list event) :
  logged w (ev :: evs) <> w.
Proof.
  intros Heq. apply (f_equal trace) in Heq. simpl in Heq.
  apply (f_equal (@length event)) in Heq.
  rewrite length_app in Heq. simpl in Heq. lia.
Qed.

(** ** The privacy guard and the positional operations *)

(** C1: [move], [move_step], [goto_preset] and [save_preset] read the
    privacy state through [ensure_privacy_mode_off] before any other
    contact with the camera, but [calibrate] does not: its only event is
    [calibrateMotor], issued whatever the privacy state is. *)
Theorem calibrate_skips_privacy_check
    (self : TapoC225Controller) (t : Tapo) (w : World) :
  tapo self = Some t ->
  (forall op, op <> OpCalibrate -> op_accepts op ->
     exists rest,
       trace (snd (run_op self op w))
       = trace w ++ EDevice (tapo_host t) getPrivacyMode :: rest)
  /\ run_op self OpCalibrate w
     = (answer (env (trace w) (EDevice (tapo_host t) calibrateMotor)),
        logged w [EDevice (tapo_host t) calibrateMotor]).
Proof.
  intros Ht; split.
  - intros op Hop Hacc. rewrite run_op_guarded by done. unfold bind.
    destruct (guard_shape self t w Ht) as (r & g & -> & _ & _).
    destruct r as [b|e]; simpl; [|by eauto].
    rewrite (tapo_call_connected _ t) by done. simpl.
    rewrite <- app_assoc. simpl. by eauto.
  - simpl. unfold calibrate. by apply tapo_call_connected.
Qed.

(** C5: [move_step] raises its [ValueError] with the world untouched
    exactly when the angle is below 0 or at least 360; for an angle in
    range on a connected controller, and when no interrupt arrives, the
    guard runs and [moveMotorStep angle] is issued as the last event, its
    answer being the result. *)
Theorem move_step_angle_validation
    (self : TapoC225Controller) (angle : Z) (w : World) :
  ((exists msg, move_step self angle w = (Raise (ValueError msg), w))
   <-> (angle < 0 \/ 360 <= angle))
  /\ (forall t, tapo self = Some t -> 0 <= angle < 360 -> only_Exceptions ->
      exists g,
        let rd := EDevice (tapo_host t) getPrivacyMode in
        let step := EDevice (tapo_host t) (moveMotorStep angle) in
        move_step self angle w
        = (answer (env (trace w ++ rd :: g) step), logged w (rd :: g ++ [step]))).
Proof.
  split; [split|].
  - intros [msg Hraise].
    destruct (decide (0 <= angle < 360)) as [Hin|Hout]; [exfalso|lia].
    rewrite move_step_in_range in Hraise by done.
    unfold bind in Hraise.
    destruct (tapo self) as [t|] eqn:Ht.
    + destruct (guard_shape self t w Ht) as (r & g & Hg & _ & _).
      rewrite Hg in Hraise. destruct r as [b|e].
      * rewrite (tapo_call_connected _ t) in Hraise by done.
        rewrite logged_logged in Hraise. simplify_eq.
        by eapply trace_logged_neq.
      * simplify_eq. by eapply trace_logged_neq.
    + unfold ensure_privacy_mode_off, try_except, bind, tapo_call in Hraise.
      rewrite Ht in Hraise. simpl in Hraise. discriminate.
  - intros Hout. eexists. unfold move_step.
    assert (((0 <=? angle) && (angle <? 360)) = false) as ->; [|done].
    apply andb_false_iff.
    destruct Hout; [left; apply Z.leb_gt|right; apply Z.ltb_ge]; lia.
  - intros t Ht Hin Hex.
    rewrite move_step_in_range by done. unfold bind.
    destruct (guard_returns self t w Ht Hex) as (b & g & -> & _).
    exists g. simpl.
    rewrite (tapo_call_connected _ t) by done.
    by rewrite logged_logged.
Qed.

(** C6 (as the code has it): for a guarded operation on a connected
    controller whose privacy read answers a dict, the events are exactly
    [read; write-off; sleep 1; command] when the dict says "on" and both
    the write and the sleep return, and exactly [read; command] when the
    dict does not say "on". *)
Theorem privacy_guard_event_order
    (self : TapoC225Controller) (t : Tapo) (op : ptz_op) (w : World)
    (d : list (string * pyval)) :
  let h := tapo_host t in
  let rd := EDevice h getPrivacyMode in
  let wr := EDevice h (setPrivacyMode false) in
  let cmd := EDevice h (op_call op) in
  tapo self = Some t -> op <> OpCalibrate -> op_accepts op ->
  env (trace w) rd = Ret (VDict d) ->
  (Dict.get d "enabled" = Some (VStr "on") ->
   (exists v, env (trace w ++ [rd]) wr = Ret v) ->
   (exists v, env (trace w ++ [rd; wr]) (ESleep 1) = Ret v) ->
   trace (snd (run_op self op w)) = trace w ++ [rd; wr; ESleep 1; cmd])
  /\ (Dict.get d "enabled" <> Some (VStr "on") ->
      trace (snd (run_op self op w)) = trace w ++ [rd; cmd]).
Proof.
  intros h rd wr cmd Ht Hop Hacc Hrd.
  pose proof (guard_cases self t w Ht) as H. simpl in H.
  fold h rd wr in H. rewrite Hrd in H. simpl in H.
  rewrite run_op_guarded by done. unfold bind.
  split.
  - intros Hon [v Hwr] [v' Hsl].
    rewrite Hon in H. simpl in H. rewrite Hwr, Hsl in H. rewrite H.
    rewrite (tapo_call_connected _ t) by done. simpl.
    by rewrite <- app_assoc.
  - intros Hoff.
    assert (py_eq_str (match Dict.get d "enabled" with
                       | Some x => x | None => VNone end) "on" = false) as Hne.
    { destruct (Dict.get d "enabled") as [[]|] eqn:Hd; simpl; try done.
      apply String.eqb_neq. congruence. }
    rewrite Hne in H. rewrite H.
    rewrite (tapo_call_connected _ t) by done. simpl.
    by rewrite <- app_assoc.
Qed.

(** C7: when the privacy read raises an [Exception], the guard swallows
    it and returns [False]; the guarded operation then issues its own
    pytapo call, and the operation's outcome is that call's outcome. *)
Theorem privacy_read_failure_not_propagated
    (self : TapoC225Controller) (t : Tapo) (op : ptz_op) (w : World) (e : exn) :
  let h := tapo_host t in
  let rd := EDevice h getPrivacyMode in
  let cmd := EDevice h (op_call op) in
  tapo self = Some t -> op <> OpCalibrate -> op_accepts op ->
  env (trace w) rd = Throw e -> is_Exception e = true ->
  ensure_privacy_mode_off self w = (Ok false, logged w [rd])
  /\ run_op self op w
     = (answer (env (trace w ++ [rd]) cmd), logged w [rd; cmd]).
Proof.
  intros h rd cmd Ht Hop Hacc Hrd He.
  pose proof (guard_cases self t w Ht) as H. simpl in H.
  fold h rd in H. rewrite Hrd, He in H.
  split; [done|].
  rewrite run_op_guarded by done. unfold bind. rewrite H.
  rewrite (tapo_call_connected _ t) by done.
  by rewrite logged_logged.
Qed.

(** ** The patrol loop *)

Lemma for_each_app {A} (xs ys : list A) (body : A -> M unit) (w : World) :
  for_each (xs ++ ys) body w
  = match for_each xs body w with
    | (Ok _, w') => for_each ys body w'
    | (Raise e, w') => (Raise e, w')
    end.
Proof.
  revert w; induction xs as [|x xs IH]; intros w; simpl; [done|].
  unfold bind. destruct (body x w) as [[[]|e] w']; [apply IH|done].
Qed.

Lemma for_each_cons {A} (x : A) (xs : list A) (body : A -> M unit) (w : World) :
  for_each (x :: xs) body w
  = match body x w with
    | (Ok _, w') => for_each xs body w'
    | (Raise e, w') => (Raise e, w')
    end.
Proof. simpl. unfold bind. by destruct (body x w) as [[[]|e] w']. Qed.

Lemma patrol_trace_app (h : string) (interval_seconds : Z)
    (v1 v2 : list pyval) (t1 t2 : list event) :
  patrol_trace h interval_seconds v1 t1 ->
  patrol_trace h interval_seconds v2 t2 ->
  patrol_trace h interval_seconds (v1 ++ v2) (t1 ++ t2).
Proof.
  induction 1 as [|p visits g t Hg Ht IH]; intros H2; simpl; [done|].
  rewrite <- !app_assoc. simpl.
  apply (patrol_trace_step h interval_seconds p (visits ++ v2) g (t ++ t2)); auto.
Qed.

(** The guard when nothing raises. *)
Lemma guard_reliable (self : TapoC225Controller) (t : Tapo) (w : World) :
  tapo self = Some t -> env_reliable ->
  exists b g,
    guard_trace (tapo_host t) g
    /\ ensure_privacy_mode_off self w = (Ok b, logged w g).
Proof.
  intros Ht Hrel.
  pose proof (guard_cases self t w Ht) as H. simpl in H.
  set (rd := EDevice (tapo_host t) getPrivacyMode) in *.
  set (wr := EDevice (tapo_host t) (setPrivacyMode false)) in *.
  destruct (Hrel (trace w) rd) as [privacy Hrd]. rewrite Hrd in H.
  destruct (py_get privacy "enabled" VNone) as [enabled|e].
  2:{ exists false, [rd]. split; [by left|done]. }
  destruct (py_eq_str enabled "on").
  2:{ exists true, [rd]. split; [by left|done]. }
  destruct (Hrel (trace w ++ [rd]) wr) as [v Hwr]. rewrite Hwr in H.
  destruct (Hrel (trace w ++ [rd; wr]) (ESleep 1)) as [v' Hsl]. rewrite Hsl in H.
  exists true, [rd; wr; ESleep 1]. split; [by right|done].
Qed.

(** One visit when nothing raises. *)
Lemma patrol_visit_reliable (self : TapoC225Controller) (t : Tapo)
    (preset_id : pyval) (interval_seconds : Z) (w : World) :
  tapo self = Some t -> env_reliable -> 0 <= interval_seconds ->
  exists g,
    guard_trace (tapo_host t) g
    /\ patrol_visit self interval_seconds preset_id w
       = (Ok tt, logged w (g ++ [EDevice (tapo_host t) (setPreset (py_str preset_id));
                                 ESleep interval_seconds])).
Proof.
  intros Ht Hrel Hint.
  destruct (guard_reliable self t w Ht Hrel) as (b & g & Hg & Hguard).
  assert ((interval_seconds <? 0) = false) as Hlt by (apply Z.ltb_ge; lia).
  exists g. split; [done|].
  unfold patrol_visit, goto_preset, bind. rewrite Hguard.
  rewrite (tapo_call_connected _ t) by done.
  set (cmd := EDevice (tapo_host t) (setPreset (py_str preset_id))).
  destruct (Hrel (trace (logged w g)) cmd) as [v ->]. simpl.
  unfold sleep. rewrite Hlt. unfold bind. rewrite perform_eq.
  destruct (Hrel (trace (logged (logged w g) [cmd])) (ESleep interval_seconds))
    as [v' ->]. simpl.
  rewrite !logged_logged. simpl. done.
Qed.

Lemma patrol_pass_reliable (self : TapoC225Controller) (t : Tapo)
    (preset_ids : list pyval) (interval_seconds : Z) (w : World) :
  tapo self = Some t -> env_reliable -> 0 <= interval_seconds ->
  exists tr,
    patrol_trace (tapo_host t) interval_seconds preset_ids tr
    /\ patrol_pass self preset_ids interval_seconds w = (Ok tt, logged w tr).
Proof.
  intros Ht Hrel Hint. revert w.
  induction preset_ids as [|p ps IH]; intros w.
  - exists []. split; [constructor|]. simpl. unfold ret. by rewrite logged_nil.
  - destruct (patrol_visit_reliable self t p interval_seconds w Ht Hrel Hint)
      as (g & Hg & Hvisit).
    unfold patrol_pass. simpl. unfold bind at 1.
    rewrite Hvisit.
    destruct (IH (logged w (g ++ [EDevice (tapo_host t) (setPreset (py_str p));
                                  ESleep interval_seconds]))) as (tr & Htr & Hpass).
    unfold patrol_pass in Hpass. rewrite Hpass.
    eexists. split; [by apply patrol_trace_step|].
    rewrite logged_logged. by rewrite <- app_assoc.
Qed.

Lemma patrol_loop_reliable (self : TapoC225Controller) (t : Tapo)
    (preset_ids : list pyval) (interval_seconds : Z) (fuel : nat) (w : World) :
  tapo self = Some t -> env_reliable -> 0 <= interval_seconds ->
  exists tr,
    patrol_trace (tapo_host t) interval_seconds
      (concat (replicate fuel preset_ids)) tr
    /\ patrol_loop fuel self preset_ids interval_seconds w = (None, logged w tr).
Proof.
  intros Ht Hrel Hint. revert w.
  induction fuel as [|fuel IH]; intros w; simpl.
  - exists []. split; [constructor|]. by rewrite logged_nil.
  - destruct (patrol_pass_reliable self t preset_ids interval_seconds w Ht Hrel Hint)
      as (tr1 & Htr1 & ->).
    destruct (IH (logged w tr1)) as (tr2 & Htr2 & ->).
    exists (tr1 ++ tr2). split; [by apply patrol_trace_app|].
    by rewrite logged_logged.
Qed.

(** A failing visit ends the loop there, whatever fuel is left. *)
Lemma patrol_loop_error (self : TapoC225Controller)
    (pre post : list pyval) (p : pyval) (interval_seconds : Z) (e : exn)
    (k : nat) :
  forall (fuel : nat) (w w1 w2 : World),
    patrol_pass self (concat (replicate k (pre ++ p :: post)) ++ pre)
      interval_seconds w = (Ok tt, w1) ->
    goto_preset self p w1 = (Raise e, w2) ->
    (k < fuel)%nat ->
    patrol_loop fuel self (pre ++ p :: post) interval_seconds w
    = (Some (Raise e), w2).
Proof.
  induction k as [|k IH]; intros fuel w w1 w2 Hpass Hgoto Hfuel;
    (destruct fuel as [|fuel]; [lia|]); simpl in *.
  - unfold patrol_pass in *. rewrite for_each_app, Hpass. simpl.
    unfold bind at 1. unfold patrol_visit at 1. unfold bind at 1.
    by rewrite Hgoto.
  - unfold patrol_pass in Hpass. rewrite <- app_assoc, for_each_app in Hpass.
    unfold patrol_pass at 1.
    destruct (for_each (pre ++ p :: post) (patrol_visit self interval_seconds) w)
      as [[[]|e'] w'] eqn:Hfirst; [|discriminate].
    apply (IH fuel w' w1 w2); [done|done|lia].
Qed.

(** C9: on a connected controller, when the camera answers every call,
    the patrol never returns and after any number of passes its trace is
    that of visiting the presets in their cyclic order, each [setPreset]
    followed by the dwell; and when a [goto_preset] raises an
    [Exception], the patrol stops in the very world that call left
    behind, its last event being the failed [setPreset], and raises that
    exception to the caller. *)
Theorem patrol_cycles_and_surfaces_errors
    (self : TapoC225Controller) (t : Tapo) (preset_ids : list pyval)
    (interval_seconds : Z) (w : World) :
  tapo self = Some t ->
  (env_reliable -> 0 <= interval_seconds ->
   forall fuel, exists tr,
     patrol_trace (tapo_host t) interval_seconds
       (concat (replicate fuel preset_ids)) tr
     /\ start_patrol fuel self preset_ids interval_seconds w = (None, logged w tr))
  /\ (forall (k fuel : nat) pre p post w1 w2 e,
       preset_ids = pre ++ p :: post ->
       patrol_pass self (concat (replicate k preset_ids) ++ pre)
         interval_seconds w = (Ok tt, w1) ->
       goto_preset self p w1 = (Raise e, w2) ->
       is_Exception e = true ->
       (k < fuel)%nat ->
       start_patrol fuel self preset_ids interval_seconds w = (Some (Raise e), w2)
       /\ last (trace w2) = Some (EDevice (tapo_host t) (setPreset (py_str p)))).
Proof.
  intros Ht; split.
  - intros Hrel Hint fuel.
    destruct (patrol_loop_reliable self t preset_ids interval_seconds fuel w
                Ht Hrel Hint) as (tr & Htr & Hloop).
    exists tr. split; [done|]. unfold start_patrol. by rewrite Hloop.
  - intros k fuel pre p post w1 w2 e -> Hpass Hgoto He Hfuel. split.
    + unfold start_patrol.
      rewrite (patrol_loop_error self pre post p interval_seconds e k
                 fuel w w1 w2 Hpass Hgoto Hfuel).
      by destruct e.
    + unfold goto_preset, bind in Hgoto.
      destruct (guard_shape self t w1 Ht) as (r & g & Hg & _ & Hraise).
      rewrite Hg in Hgoto. destruct r as [b|e'].
      * rewrite (tapo_call_connected _ t) in Hgoto by done.
        rewrite logged_logged in Hgoto. simplify_eq. simpl.
        rewrite app_comm_cons, app_assoc. apply last_snoc.
      * simplify_eq. destruct (Hraise e eq_refl) as [Hne _]. congruence.
Qed.

(** ** Dictionaries *)

Lemma Dict_get_set_eq {A} (d : list (string * A)) (k : string) (v : A) :
  Dict.get (Dict.set d k v) k = Some v.
Proof.
  induction d as [|[k' v'] d IH]; simpl.
  - by rewrite String.eqb_refl.
  - destruct (String.eqb k' k) eqn:Hk; simpl.
    + by rewrite String.eqb_refl.
    + by rewrite Hk.
Qed.

Lemma Dict_get_set_ne {A} (d : list (string * A)) (k k' : string) (v : A) :
  k <> k' -> Dict.get (Dict.set d k v) k' = Dict.get d k'.
Proof.
  intros Hne. induction d as [|[k0 v0] d IH]; simpl.
  - by apply String.eqb_neq in Hne as ->.
  - destruct (String.eqb k0 k) eqn:Hk; simpl.
    + apply String.eqb_eq in Hk as ->.
      by apply String.eqb_neq in Hne as ->.
    + by rewrite IH.
Qed.

Lemma Dict_keys_set {A} (d : list (string * A)) (k k' : string) (v : A) :
  k' ∈ Dict.keys (Dict.set d k v) <-> k' = k \/ k' ∈ Dict.keys d.
Proof.
  unfold Dict.keys. induction d as [|[k0 v0] d IH]; simpl.
  - rewrite list_elem_of_singleton, elem_of_nil. tauto.
  - destruct (String.eqb k0 k) eqn:Hk; simpl.
    + apply String.eqb_eq in Hk as ->. rewrite !elem_of_cons. tauto.
    + rewrite !elem_of_cons, IH. tauto.
Qed.

Lemma Dict_keys_set_NoDup {A} (d : list (string * A)) (k : string) (v : A) :
  NoDup (Dict.keys d) -> NoDup (Dict.keys (Dict.set d k v)).
Proof.
  induction d as [|[k0 v0] d IH]; simpl; intros Hnd.
  - apply NoDup_singleton.
  - destruct (String.eqb k0 k) eqn:Hk; simpl.
    + by apply String.eqb_eq in Hk as ->.
    + apply NoDup_cons in Hnd as [Hnotin Hnd]. apply NoDup_cons. split; [|auto].
      intros Hin. apply (Dict_keys_set d k k0 v) in Hin as [->|Hin]; [|done].
      by rewrite String.eqb_refl in Hk.
Qed.

Lemma Dict_keys_set_mem {A} (d : list (string * A)) (k : string) (v : A) :
  Dict.mem d k = true -> Dict.keys (Dict.set d k v) = Dict.keys d.
Proof.
  unfold Dict.mem. induction d as [|[k0 v0] d IH]; simpl; [done|].
  destruct (String.eqb k0 k) eqn:Hk; simpl.
  - by apply String.eqb_eq in Hk as ->.
  - intros Hm. by rewrite IH.
Qed.

Lemma Dict_set_elem {A} (d : list (string * A)) (k : string) (v : A) :
  (k, v) ∈ Dict.set d k v.
Proof.
  induction d as [|[k0 v0] d IH]; simpl; [by apply list_elem_of_singleton|].
  destruct (String.eqb k0 k); apply elem_of_cons; [by left|by right].
Qed.

Lemma Dict_set_elem_inv {A} (d : list (string * A)) (k k' : string) (v v' : A) :
  (k', v') ∈ Dict.set d k v -> (k' = k /\ v' = v) \/ (k', v') ∈ d.
Proof.
  induction d as [|[k0 v0] d IH]; simpl.
  - rewrite list_elem_of_singleton. intros [= -> ->]. by left.
  - destruct (String.eqb k0 k); rewrite !elem_of_cons.
    + intros [[= -> ->]|Hin]; [by left|right; by right].
    + intros [[= -> ->]|Hin]; [right; by left|].
      destruct (IH Hin) as [?|?]; [by left|right; by right].
Qed.

Lemma Dict_set_set {A} (d : list (string * A)) (k : string) (v v' : A) :
  Dict.set (Dict.set d k v) k v' = Dict.set d k v'.
Proof.
  induction d as [|[k0 v0] d IH]; simpl.
  - by rewrite String.eqb_refl.
  - destruct (String.eqb k0 k) eqn:Hk; simpl.
    + by rewrite String.eqb_refl.
    + by rewrite Hk, IH.
Qed.

(** ** Rules for postconditions *)

Lemma returns_ret {A} (a : A) (P : A -> Prop) : P a -> returns (ret a) P.
Proof. by intros Ha w. Qed.

Lemma returns_bind {A B} (m : M A) (k : A -> M B) (Q : B -> Prop) :
  (forall a, returns (k a) Q) -> returns (bind m k) Q.
Proof.
  intros Hk w. unfold bind. destruct (m w) as [[a|e] w']; [apply Hk|done].
Qed.

Lemma returns_try {A} (m : M A) (c : exn -> bool) (h : exn -> M A)
    (Q : A -> Prop) :
  returns m Q -> (forall e, returns (h e) Q) -> returns (try_except m c h) Q.
Proof.
  intros Hm Hh w. unfold try_except. specialize (Hm w).
  destruct (m w) as [[a|e] w']; [done|].
  destruct (c e); [apply Hh|done].
Qed.

Lemma catches_all_ret {A} (a : A) : catches_all (ret a).
Proof. by intros w. Qed.

Lemma catches_all_try {A} (m : M A) (h : exn -> M A) :
  (forall e, catches_all (h e)) -> catches_all (try_except m is_Exception h).
Proof.
  intros Hh w. unfold try_except.
  destruct (m w) as [[a|e] w']; [done|].
  destruct (is_Exception e) eqn:He; [apply Hh|done].
Qed.

(** ** The registry and the batch operations *)

Lemma get_all_presets_entry_ok (all_presets : list (string * pyval))
    (cam_id : string) (ctrl : TapoC225Controller) (w : World) :
  only_Exceptions ->
  exists v w',
    get_all_presets_entry all_presets cam_id ctrl w
    = (Ok (Dict.set all_presets cam_id v), w').
Proof.
  intros Hex. unfold get_all_presets_entry, try_except, bind, tapo_call.
  destruct (tapo ctrl) as [t|]; [|by eexists _, _].
  rewrite perform_eq.
  destruct (env (trace w) (EDevice (tapo_host t) getPresets)) as [v|e] eqn:He;
    simpl.
  - unfold lift. destruct (py_len v) as [n|e] eqn:Hlen; simpl.
    + by eexists _, _.
    + assert (is_Exception e = true) as ->
        by (destruct v; simpl in Hlen; by simplify_eq).
      rewrite Dict_set_set. by eexists _, _.
  - rewrite (Hex _ _ _ He). by eexists _, _.
Qed.

Lemma get_all_presets_loop_keys (items : list (string * TapoC225Controller)) :
  only_Exceptions ->
  forall (all_presets : list (string * pyval)) (w : World),
    NoDup (Dict.keys all_presets) ->
    exists d w',
      get_all_presets_loop items all_presets w = (Ok d, w')
      /\ (forall k, k ∈ Dict.keys d
                   <-> k ∈ Dict.keys all_presets \/ k ∈ Dict.keys items)
      /\ NoDup (Dict.keys d).
Proof.
  clear py_repr. intros Hex. induction items as [|[cam_id ctrl] rest IH];
    intros all_presets w Hnd; simpl.
  - exists all_presets, w. split; [done|]. split; [|done].
    intros k. rewrite elem_of_nil. tauto.
  - unfold bind.
    destruct (get_all_presets_entry_ok all_presets cam_id ctrl w Hex)
      as (v & w1 & ->).
    destruct (IH (Dict.set all_presets cam_id v) w1) as (d & w' & -> & Hkeys & Hd).
    { by apply Dict_keys_set_NoDup. }
    exists d, w'. split; [done|]. split; [|done].
    intros k. rewrite Hkeys, Dict_keys_set, elem_of_cons. tauto.
Qed.

(** The entry of one camera, exactly. *)
Lemma get_all_presets_entry_exact (all_presets : list (string * pyval))
    (cam_id : string) (ctrl : TapoC225Controller) (w : World) :
  only_Exceptions ->
  get_all_presets_entry all_presets cam_id ctrl w
  = (Ok (Dict.set all_presets cam_id
           (stored_presets (asked_presets ctrl (trace w)))),
     logged w (batch_calls [(cam_id, ctrl)] getPresets)).
Proof.
  intros Hex.
  unfold get_all_presets_entry, try_except, bind, tapo_call, asked_presets,
    batch_calls. simpl.
  destruct (tapo ctrl) as [t|]; simpl; [|by rewrite logged_nil].
  rewrite perform_eq.
  destruct (env (trace w) (EDevice (tapo_host t) getPresets)) as [v|e] eqn:He;
    simpl.
  - unfold lift. destruct (py_len v) as [n|e] eqn:Hlen; simpl; [done|].
    assert (is_Exception e = true) as ->
      by (destruct v; simpl in Hlen; by simplify_eq).
    by rewrite Dict_set_set.
  - by rewrite (Hex _ _ _ He).
Qed.

Lemma batch_calls_app (a b : list (string * TapoC225Controller)) (c : call) :
  batch_calls (a ++ b) c = batch_calls a c ++ batch_calls b c.
Proof. apply flat_map_app. Qed.

Lemma batch_calls_cons (x : string * TapoC225Controller)
    (l : list (string * TapoC225Controller)) (c : call) :
  batch_calls (x :: l) c = batch_calls [x] c ++ batch_calls l c.
Proof. apply (batch_calls_app [x] l). Qed.

(** The loop of [get_all_presets] on items with unique ids: one
    [getPresets] per client, and per item the answer given at its turn. *)
Lemma get_all_presets_loop_exact (items : list (string * TapoC225Controller)) :
  only_Exceptions ->
  NoDup (Dict.keys items) ->
  forall (all_presets : list (string * pyval)) (w : World),
  exists d,
    get_all_presets_loop items all_presets w
    = (Ok d, logged w (batch_calls items getPresets))
    /\ (forall k, k ∉ Dict.keys items -> Dict.get d k = Dict.get all_presets k)
    /\ (forall before id c after,
          items = before ++ (id, c) :: after ->
          Dict.get d id
          = Some (stored_presets
                    (asked_presets c (trace w ++ batch_calls before getPresets)))).
Proof.
  clear py_repr. intros Hex.
  induction items as [|[id0 c0] rest IH]; intros Hnd all_presets w.
  - exists all_presets. simpl. unfold ret. rewrite logged_nil.
    split; [done|]. split; [done|].
    intros before id c after Heq. by destruct before.
  - apply NoDup_cons in Hnd as [Hnotin Hnd]. simpl. unfold bind.
    rewrite get_all_presets_entry_exact by done.
    destruct (IH Hnd (Dict.set all_presets id0
                        (stored_presets (asked_presets c0 (trace w))))
                 (logged w (batch_calls [(id0, c0)] getPresets)))
      as (d & Hrun & Hother & Hturn).
    exists d. split; [|split].
    + rewrite Hrun, logged_logged, <- batch_calls_cons. done.
    + intros k Hk. apply not_elem_of_cons in Hk as [Hne Hk].
      rewrite Hother by done. apply Dict_get_set_ne. congruence.
    + intros before id c after Heq. destruct before as [|[id1 c1] before];
        simpl in Heq; simplify_eq.
      * rewrite Hother by done. simpl. rewrite app_nil_r.
        apply Dict_get_set_eq.
      * rewrite (Hturn before id c after eq_refl).
        rewrite (batch_calls_cons _ before), app_assoc. done.
Qed.

(** C2 (as the code has it): [get_all_presets] takes no set of ids; when
    no interrupt arrives it returns a dict with exactly one entry per
    camera of the registry, whichever cameras fail to answer; and on a
    registry with unique ids the entry of a camera whose [getPresets]
    raises at its turn is the empty dict, the entry of a camera that
    answers a value with a length being that value. *)
Theorem get_all_presets_covers_registry
    (self : TapoMultiCameraManager) (w : World) :
  only_Exceptions ->
  exists d w',
    get_all_presets self w = (Ok d, w')
    /\ (forall k, k ∈ Dict.keys d <-> k ∈ list_cameras self)
    /\ NoDup (Dict.keys d)
    /\ (NoDup (list_cameras self) ->
        forall before id c after t,
          cameras self = before ++ (id, c) :: after ->
          tapo c = Some t ->
          let answered := env (trace w ++ batch_calls before getPresets)
                              (EDevice (tapo_host t) getPresets) in
          (forall e, answered = Throw e -> Dict.get d id = Some (VDict []))
          /\ (forall v n, answered = Ret v -> py_len v = Ok n ->
                Dict.get d id = Some v)).
Proof.
  intros Hex. unfold get_all_presets, list_cameras.
  destruct (get_all_presets_loop_keys (cameras self) Hex [] w)
    as (d & w' & Hrun & Hkeys & Hd); [constructor|].
  exists d, w'. split; [done|]. split; [|split; [done|]].
  { intros k. rewrite Hkeys. simpl. rewrite elem_of_nil. tauto. }
  intros Hnd before id c after t Hcams Ht.
  destruct (get_all_presets_loop_exact (cameras self) Hex Hnd [] w)
    as (d2 & Hrun2 & _ & Hturn).
  rewrite Hrun in Hrun2. injection Hrun2 as <- _.
  specialize (Hturn before id c after Hcams).
  unfold asked_presets in Hturn. rewrite Ht in Hturn.
  split.
  - intros e He. by rewrite Hturn, He.
  - intros v n Hv Hlen. rewrite Hturn, Hv. simpl. by rewrite Hlen.
Qed.

Lemma _get_motor_capability_fields (self : TapoC225Controller) :
  returns (_get_motor_capability self)
          (fun c => same_target self c /\ tapo c = tapo self).
Proof.
  unfold _get_motor_capability.
  apply returns_try; [|intros e; by apply returns_ret].
  do 3 (apply returns_bind; intros ?). cbv zeta.
  apply returns_try; [|intros e; by apply returns_ret].
  do 4 (apply returns_bind; intros ?). by apply returns_ret.
Qed.

Lemma connect_fields (self : TapoC225Controller) :
  returns (connect self)
          (fun r => same_target self (snd r)
                    /\ (fst r = true -> tapo (snd r)
                         = Some (mkTapo (host self) (user self) (password self)))).
Proof.
  unfold connect.
  apply returns_try; [|intros e; by apply returns_ret].
  apply returns_bind; intros _. cbv zeta.
  apply returns_try; [|intros e; by apply returns_ret].
  do 5 (apply returns_bind; intros ?).
  intros w0. pose proof (_get_motor_capability_fields
    (mkController (host self) (user self) (password self)
       (Some (mkTapo (host self) (user self) (password self)))
       (motor_capability self)) w0) as H.
  unfold bind. destruct (_get_motor_capability _ w0) as [[c|e] w1]; [|done].
  simpl in *. destruct H as [(? & ? & ?) ?]. by repeat split.
Qed.

Lemma connect_catches_all (self : TapoC225Controller) : catches_all (connect self).
Proof. apply catches_all_try. intros e. apply catches_all_ret. Qed.

(** C8 (as the code has it): adding a camera under an id that is already
    registered raises no duplicate error.  When the connection succeeds
    ([connect] returns [True]) the call returns [True] and the entry of
    that id is replaced by the session [connect] produced, which aims at
    the given host with the given credentials, the other entries and the
    order of the ids staying as they were; when it fails the call returns
    [False] and the registry is unchanged; only an interrupt is raised. *)
Theorem add_camera_existing_id_overwrites
    (self : TapoMultiCameraManager) (camera_id h u p : string)
    (old : TapoC225Controller) (w : World) :
  get_camera self camera_id = Some old ->
  match connect (new_controller h u p) w with
  | (Ok (true, c), w') =>
      exists self',
        add_camera self camera_id h u p w = (Ok (true, self'), w')
        /\ get_camera self' camera_id = Some c
        /\ host c = h /\ user c = u /\ password c = p
        /\ list_cameras self' = list_cameras self
        /\ (forall id, id <> camera_id -> get_camera self' id = get_camera self id)
  | (Ok (false, _), w') =>
      add_camera self camera_id h u p w = (Ok (false, self), w')
  | (Raise e, w') =>
      add_camera self camera_id h u p w = (Raise e, w')
      /\ is_Exception e = false
  end.
Proof.
  intros Hold. unfold add_camera, bind.
  pose proof (connect_fields (new_controller h u p) w) as Hf.
  pose proof (connect_catches_all (new_controller h u p) w) as Hc.
  destruct (connect (new_controller h u p) w) as [[[b c]|e] w']; [|done].
  simpl in *. destruct Hf as [(Hh & Hu & Hp) _].
  destruct b; simpl; [|done].
  eexists. split; [reflexivity|].
  unfold get_camera, list_cameras in *. simpl.
  split; [by rewrite Dict_get_set_eq|].
  do 3 (split; [done|]). split.
  - apply Dict_keys_set_mem. unfold Dict.mem. by rewrite Hold.
  - intros id Hid. by apply Dict_get_set_ne.
Qed.

Lemma build_config_public (items1 items2 : list (string * TapoC225Controller)) :
  public_view items1 = public_view items2 ->
  build_config items1 = build_config items2.
Proof.
  unfold build_config. generalize (@nil (string * pyval)).
  revert items2. induction items1 as [|[id1 c1] items1 IH];
    intros [|[id2 c2] items2] acc Hview; simpl in *; try done.
  injection Hview as -> Hh Hu Hrest.
  unfold config_entry. rewrite Hh, Hu. by apply IH.
Qed.

Lemma build_config_entries (items : list (string * TapoC225Controller))
    (id : string) (v : pyval) :
  (id, v) ∈ build_config items ->
  exists c, (id, c) ∈ items /\ v = config_entry c.
Proof.
  unfold build_config.
  assert (forall acc,
    (id, v) ∈ fold_left (fun config item =>
                Dict.set config (fst item) (config_entry (snd item))) items acc ->
    (id, v) ∈ acc \/ exists c, (id, c) ∈ items /\ v = config_entry c) as H.
  { induction items as [|[id0 c0] items IH]; intros acc Hin; simpl in *.
    - by left.
    - destruct (IH _ Hin) as [Hacc|(c & Hc & ->)].
      + apply Dict_set_elem_inv in Hacc as [[-> ->]|Hacc]; [right|by left].
        exists c0. split; [apply elem_of_cons; by left|done].
      + right. exists c. split; [apply elem_of_cons; by right|done]. }
  intros Hin. destruct (H [] Hin) as [Hnil|Hc]; [|done].
  by apply elem_of_nil in Hnil.
Qed.

(** C10: the document [save_config] writes holds, per camera id, a dict
    of exactly the two fields host and user, and two registries that
    agree on ids, hosts and users but not on passwords make it write the
    same document: the world after the call is the same. *)
Theorem save_config_omits_passwords
    (m1 m2 : TapoMultiCameraManager) (filename : option string) (w : World) :
  public_view (cameras m1) = public_view (cameras m2) ->
  config_file m1 = config_file m2 ->
  save_config m1 filename w = save_config m2 filename w
  /\ exists name doc,
       files (snd (save_config m1 filename w)) !! name = Some (FJson (VDict doc))
       /\ name = match filename with Some f => f | None => config_file m1 end
       /\ forall id v, (id, v) ∈ doc ->
            exists c, (id, c) ∈ cameras m1
                      /\ v = VDict [("host", VStr (host c)); ("user", VStr (user c))].
Proof.
  intros Hview Hfile. split.
  - unfold save_config. by rewrite (build_config_public _ _ Hview), Hfile.
  - unfold save_config, json_dump. simpl.
    eexists _, _. split; [apply lookup_insert_eq|]. split; [done|].
    intros id v Hin. by apply build_config_entries.
Qed.

(** ** Scenes *)

Lemma printed_printed (w : World) (a b : list output) :
  printed (printed w a) b = printed w (a ++ b).
Proof. unfold printed; simpl; by rewrite app_assoc. Qed.

Lemma printed_nil (w : World) : printed w [] = w.
Proof. destruct w; unfold printed; simpl; by rewrite app_nil_r. Qed.

Lemma for_each_print {A} (xs : list A) (f : A -> output) (w : World) :
  for_each xs (fun x => print (f x)) w = (Ok tt, printed w (map f xs)).
Proof.
  revert w; induction xs as [|x xs IH]; intros w; simpl.
  - unfold ret. by rewrite printed_nil.
  - unfold bind, print at 1. rewrite IH. by rewrite printed_printed.
Qed.

(** The loop of [list_scenes] over a document whose values are dicts. *)
Lemma list_scenes_loop (items : list (string * pyval)) (w : World) :
  Forall (fun item => is_dict (snd item)) items ->
  exists out,
    for_each items (fun item =>
      print (OutSceneName (fst item)) ;;
      let! pairs := lift (py_items (snd item)) in
      for_each pairs (fun pair => print (OutScenePair (fst pair) (snd pair)))) w
    = (Ok tt, printed w out)
    /\ forall name d, (name, VDict d) ∈ items ->
         exists before after, out = before ++ scene_lines name d ++ after.
Proof.
  intros Hall. revert w. induction Hall as [|[name v] items Hd Hall IH];
    intros w; simpl in *; [|destruct Hd as [d ->]].
  - exists []. unfold ret. rewrite printed_nil. split; [done|].
    intros name d Hin. by apply elem_of_nil in Hin.
  - unfold bind at 1. unfold bind at 1. unfold print at 1.
    unfold bind at 1. unfold lift at 1. simpl.
    rewrite for_each_print, printed_printed.
    destruct (IH (printed w ([OutSceneName name]
       ++ map (fun pair => OutScenePair (fst pair) (snd pair)) d)))
      as (out & -> & Hout).
    rewrite printed_printed. eexists. split; [reflexivity|].
    intros name' d' Hin. apply elem_of_cons in Hin as [[= -> ->]|Hin].
    + exists [], out. done.
    + destruct (Hout name' d' Hin) as (before & after & ->).
      exists (scene_lines name d ++ before), after.
      unfold scene_lines. simpl. by rewrite <- !app_assoc.
Qed.

Lemma Dict_set_values {A} (P : A -> Prop) (d : list (string * A)) (k : string) (v : A) :
  Forall (fun item => P (snd item)) d -> P v ->
  Forall (fun item => P (snd item)) (Dict.set d k v).
Proof.
  intros Hd Hv. induction Hd as [|[k0 v0] d H0 Hd IH]; simpl.
  - by repeat constructor.
  - destruct (String.eqb k0 k); constructor; auto.
Qed.

(** C3: on a scene document that is missing or a JSON object,
    [create_scene S M] returns; reading the document back then gives an
    object whose entry for [S] is [M], key for key and value for value,
    the other scenes being as they were; and when the scenes already
    stored are dicts, [list_scenes] returns the names, [S] among them, and
    prints under [S] the pairs of [M] in order. *)
Theorem create_scene_round_trip
    (scene_name : string) (camera_presets : list (string * string))
    (d : list (string * pyval)) (w : World) :
  scenes_doc w = Some d ->
  exists w' d',
    create_scene scene_name camera_presets w = (Ok tt, w')
    /\ json_load scenes_file w' = (Ok (VDict d'), w')
    /\ Dict.get d' scene_name = Some (str_dict camera_presets)
    /\ (forall other, other <> scene_name -> Dict.get d' other = Dict.get d other)
    /\ (Forall (fun item => is_dict (snd item)) d ->
        exists out before after,
          list_scenes w' = (Ok (Dict.keys d'), printed w' out)
          /\ scene_name ∈ Dict.keys d'
          /\ out = before
                   ++ scene_lines scene_name (str_items camera_presets)
                   ++ after).
Proof.
  intros Hdoc.
  set (d' := Dict.set d scene_name (str_dict camera_presets)).
  set (w' := mkWorld (trace w) (<[scenes_file := FJson (VDict d')]> (files w))
                     (stdout w)).
  assert (create_scene scene_name camera_presets w = (Ok tt, w')) as Hcreate.
  { unfold create_scene, bind, try_except, json_load, scenes_doc in *.
    destruct (files w !! scenes_file) as [[[]|]|]; simplify_eq; done. }
  assert (json_load scenes_file w' = (Ok (VDict d'), w')) as Hload.
  { unfold json_load. simpl. by rewrite lookup_insert_eq. }
  exists w', d'. split; [done|]. split; [done|].
  split; [apply Dict_get_set_eq|].
  split; [intros other Hne; by apply Dict_get_set_ne|].
  intros Hall.
  assert (Forall (fun item => is_dict (snd item)) d') as Hall'.
  { apply Dict_set_values; [done|]. by eexists. }
  destruct (list_scenes_loop d' (printed w' [OutScenesHeader (length d')]) Hall')
    as (out & Hloop & Hout).
  destruct (Hout scene_name (str_items camera_presets)) as (before & after & ->).
  { apply Dict_set_elem. }
  exists (OutScenesHeader (length d') :: before ++
          scene_lines scene_name (str_items camera_presets) ++ after),
         (OutScenesHeader (length d') :: before), after.
  split; [|split].
  - unfold list_scenes, try_except, bind at 1. rewrite Hload.
    unfold bind at 1, lift at 1. simpl.
    unfold bind at 1, print at 1. unfold bind at 1, lift at 1. simpl.
    unfold bind at 1. rewrite Hloop. unfold ret.
    by rewrite printed_printed.
  - apply Dict_keys_set. by left.
  - done.
Qed.

Lemma goto_calls_app (a b : list event) :
  goto_calls (a ++ b) = goto_calls a ++ goto_calls b.
Proof. apply flat_map_app. Qed.

Lemma not_connected_reports_app (a b : list output) :
  not_connected_reports (a ++ b) = not_connected_reports a ++ not_connected_reports b.
Proof. apply flat_map_app. Qed.

Lemma device_reports_app (a b : list output) :
  device_reports (a ++ b) = device_reports a ++ device_reports b.
Proof. apply flat_map_app. Qed.

(** The body of the loop of [apply_scene] for one (camera, preset) pair. *)
Lemma apply_scene_item (self : TapoMultiCameraManager) (cam_id preset_id : string)
    (w : World) :
  only_Exceptions ->
  exists tr out,
    apply_scene_entry self cam_id (VStr preset_id) w
    = (Ok tt, printed (logged w tr) out)
    /\ goto_calls tr = expected_gotos (cameras self) [(cam_id, preset_id)]
    /\ not_connected_reports out = expected_skips (cameras self) [(cam_id, preset_id)]
    /\ device_reports out = [cam_id].
Proof.
  intros Hex.
  unfold apply_scene_entry, expected_gotos, expected_skips, Dict.mem. simpl.
  destruct (Dict.get (cameras self) cam_id) as [ctrl|].
  2:{ exists [], [OutNotConnected cam_id]. by rewrite logged_nil. }
  destruct (tapo ctrl) as [t|] eqn:Ht.
  - destruct (guard_returns ctrl t w Ht Hex) as (b & g & Hguard & Hg).
    set (cmd := EDevice (tapo_host t) (setPreset preset_id)).
    set (rd := EDevice (tapo_host t) getPrivacyMode) in *.
    assert (goto_calls (rd :: g ++ [cmd]) = [(tapo_host t, preset_id)]) as Hcalls.
    { destruct Hg as [->|[->| ->]]; done. }
    unfold try_except, goto_preset, bind. rewrite Hguard.
    rewrite (tapo_call_connected _ t) by done. simpl. fold cmd.
    rewrite logged_logged.
    destruct (env _ cmd) as [v|e] eqn:Hcmd; simpl.
    + exists (rd :: g ++ [cmd]), [OutPresetOk cam_id (VStr preset_id)].
      split; [done|]. split; [exact Hcalls|done].
    + rewrite (Hex _ _ _ Hcmd).
      exists (rd :: g ++ [cmd]), [OutPresetFailed cam_id e].
      split; [done|]. split; [exact Hcalls|done].
  - exists [], [OutPresetFailed cam_id AttributeError].
    unfold try_except, goto_preset, ensure_privacy_mode_off, try_except, bind,
      tapo_call. rewrite Ht. simpl. by rewrite logged_nil.
Qed.

Lemma apply_scene_loop (self : TapoMultiCameraManager)
    (camera_presets : list (string * string)) (w : World) :
  only_Exceptions ->
  exists tr out,
    for_each (str_items camera_presets) (fun item =>
      apply_scene_entry self (fst item) (snd item)) w
    = (Ok tt, printed (logged w tr) out)
    /\ goto_calls tr = expected_gotos (cameras self) camera_presets
    /\ not_connected_reports out = expected_skips (cameras self) camera_presets
    /\ device_reports out = map fst camera_presets.
Proof.
  intros Hex. revert w.
  induction camera_presets as [|[cam_id preset_id] rest IH]; intros w.
  - exists [], []. simpl. unfold ret. by rewrite logged_nil, printed_nil.
  - destruct (apply_scene_item self cam_id preset_id w Hex)
      as (tr1 & out1 & Hitem & Hc1 & Hn1 & Hd1).
    change (str_items ((cam_id, preset_id) :: rest))
      with ((cam_id, VStr preset_id) :: str_items rest).
    rewrite for_each_cons. cbn [fst snd]. rewrite Hitem.
    destruct (IH (printed (logged w tr1) out1))
      as (tr2 & out2 & Hrest & Hc2 & Hn2 & Hd2).
    rewrite Hrest.
    exists (tr1 ++ tr2), (out1 ++ out2). split; [|split; [|split]].
    + unfold printed, logged. simpl. by rewrite !app_assoc.
    + rewrite goto_calls_app, Hc1, Hc2. unfold expected_gotos. simpl.
      by rewrite app_nil_r.
    + rewrite not_connected_reports_app, Hn1, Hn2. unfold expected_skips. simpl.
      by rewrite app_nil_r.
    + by rewrite device_reports_app, Hd1, Hd2.
Qed.

(** C4: for a stored scene [M] and any registry, when no interrupt
    arrives [apply_scene] returns normally whatever the cameras answer;
    [setPreset] is issued, in the order of the scene, to the session of
    every camera of the scene that is registered, with its mapped preset
    id; every camera of the scene that is not registered is reported as
    not connected; and each camera of the scene gets one report line. *)
Theorem apply_scene_isolates_devices
    (self : TapoMultiCameraManager) (scene_name : string)
    (camera_presets : list (string * string))
    (d : list (string * pyval)) (w : World) :
  files w !! scenes_file = Some (FJson (VDict d)) ->
  Dict.get d scene_name = Some (str_dict camera_presets) ->
  only_Exceptions ->
  exists tr out,
    apply_scene self scene_name w = (Ok tt, printed (logged w tr) out)
    /\ goto_calls tr = expected_gotos (cameras self) camera_presets
    /\ not_connected_reports out = expected_skips (cameras self) camera_presets
    /\ device_reports out = map fst camera_presets.
Proof.
  intros Hfile Hscene Hex.
  destruct (apply_scene_loop self camera_presets
              (printed w [OutApplyScene scene_name]) Hex)
    as (tr & out & Hloop & Hc & Hn & Hd).
  exists tr, (OutApplyScene scene_name :: out).
  split; [|by rewrite <- Hn, <- Hd].
  unfold apply_scene, bind at 1, try_except, bind at 1, json_load.
  rewrite Hfile. simpl. unfold Dict.mem. rewrite Hscene.
  unfold bind, lift, print. simpl.
  rewrite Hloop. unfold printed, logged. simpl. by rewrite <- app_assoc.
Qed.

(** * Further properties of the controller *)

(** X1: a controller that was never connected ([tapo] is [None]) raises
    [AttributeError] on every positional operation whose argument is
    accepted, without any contact with a camera: the guard swallows its own
    failure and the operation's call fails on the missing client. *)
Theorem unconnected_operation_raises_without_contact
    (self : TapoC225Controller) (op : ptz_op) (w : World) :
  tapo self = None -> op_accepts op ->
  run_op self op w = (Raise AttributeError, w).
Proof.
  intros Ht Hacc.
  assert (forall c, (let! _ := ensure_privacy_mode_off self in tapo_call self c) w
                    = (Raise AttributeError, w)) as Hrun.
  { intros c. unfold ensure_privacy_mode_off, try_except, bind, tapo_call.
    by rewrite Ht. }
  destruct op as [x y|angle|pid|name|]; simpl in *.
  - apply Hrun.
  - rewrite move_step_in_range by done. apply Hrun.
  - apply Hrun.
  - apply Hrun.
  - unfold calibrate, tapo_call. by rewrite Ht.
Qed.

(** X2: when the [Tapo] constructor raises an [Exception], [connect]
    returns [False], makes no further call and leaves the controller as it
    was (no client is stored). *)
Theorem connect_unreachable_host (self : TapoC225Controller) (w : World) (e : exn) :
  let init := EDevice (host self) (Tapo_init (user self) (password self)) in
  env (trace w) init = Throw e -> is_Exception e = true ->
  connect self w = (Ok (false, self), logged w [init]).
Proof.
  intros init Hinit He. unfold connect, try_except, bind.
  rewrite perform_eq. fold init. rewrite Hinit. simpl. by rewrite He.
Qed.

(** X3: when the constructor returns but [getBasicInfo] raises an
    [Exception], [connect] returns [False] although the client is already
    stored in the controller; [getMotorCapability] is not asked. *)
Theorem connect_basic_info_failure_keeps_client
    (self : TapoC225Controller) (w : World) (v : pyval) (e : exn) :
  let init := EDevice (host self) (Tapo_init (user self) (password self)) in
  let info := EDevice (host self) getBasicInfo in
  env (trace w) init = Ret v ->
  env (trace w ++ [init]) info = Throw e -> is_Exception e = true ->
  connect self w
  = (Ok (false, mkController (host self) (user self) (password self)
                  (Some (client_of self)) (motor_capability self)),
     logged w [init; info]).
Proof.
  intros init info Hinit Hinfo He. unfold connect, try_except, bind.
  rewrite perform_eq. fold init. rewrite Hinit. simpl.
  unfold tapo_call. simpl. rewrite perform_eq. simpl. fold info.
  rewrite Hinfo. simpl. rewrite He. unfold ret. by rewrite logged_logged.
Qed.

(** The motor capability step on a connected controller: one call, never
    an [Exception], the capability stored when the answer can be read. *)
Lemma _get_motor_capability_connected (self : TapoC225Controller) (t : Tapo)
    (w : World) :
  tapo self = Some t ->
  let ask := EDevice (tapo_host t) getMotorCapability in
  (forall e, env (trace w) ask = Throw e -> is_Exception e = true) ->
  exists c,
    _get_motor_capability self w = (Ok c, logged w [ask])
    /\ same_target self c /\ tapo c = tapo self
    /\ (forall e, env (trace w) ask = Throw e ->
          motor_capability c = motor_capability self)
    /\ (forall m mm cap, env (trace w) ask = Ret m ->
          py_get m "motor" (VDict []) = Ok mm ->
          py_get mm "capability" (VDict []) = Ok cap ->
          motor_capability c = Some cap).
Proof.
  intros Ht ask Hex. unfold _get_motor_capability, try_except, bind.
  rewrite (tapo_call_connected _ t) by done. fold ask.
  destruct (env (trace w) ask) as [m|e] eqn:Hask; simpl.
  2:{ rewrite (Hex e eq_refl). exists self. repeat split; try done. }
  unfold lift.
  destruct (py_get m "motor" (VDict [])) as [mm|e1] eqn:Hm; simpl.
  2:{ assert (is_Exception e1 = true) as ->
        by (destruct m; simpl in Hm; by simplify_eq).
      exists self. repeat split; try done. intros ? ? ? [= <-]. congruence. }
  destruct (py_get mm "capability" (VDict [])) as [cap|e2] eqn:Hc; simpl.
  2:{ assert (is_Exception e2 = true) as ->
        by (destruct mm; simpl in Hc; by simplify_eq).
      exists self. repeat split; try done.
      intros ? ? ? [= <-]. rewrite Hm. intros [= <-]. congruence. }
  eexists (mkController (host self) (user self) (password self) (tapo self)
             (Some cap)).
  split.
  - by destruct cap.
  - repeat split; try done.
    intros ? ? ? [= <-]. rewrite Hm. intros [= <-]. rewrite Hc. by intros [= <-].
Qed.

(** X4: once the constructor has returned and [getBasicInfo] has given a
    readable answer, [connect] returns [True] whatever [getMotorCapability]
    does short of an interrupt: exactly three calls are made, the client is
    stored, a raised [Exception] leaves [motor_capability] as it was and an
    answer with motor.capability stores that capability. *)
Theorem connect_survives_motor_capability
    (self : TapoC225Controller) (w : World) (v basic_info : pyval) :
  let init := EDevice (host self) (Tapo_init (user self) (password self)) in
  let info := EDevice (host self) getBasicInfo in
  let ask := EDevice (host self) getMotorCapability in
  env (trace w) init = Ret v ->
  env (trace w ++ [init]) info = Ret basic_info ->
  basic_info_readable basic_info ->
  (forall e, env (trace w ++ [init; info]) ask = Throw e -> is_Exception e = true) ->
  exists c,
    connect self w = (Ok (true, c), logged w [init; info; ask])
    /\ same_target self c /\ tapo c = Some (client_of self)
    /\ (forall e, env (trace w ++ [init; info]) ask = Throw e ->
          motor_capability c = motor_capability self)
    /\ (forall m mm cap, env (trace w ++ [init; info]) ask = Ret m ->
          py_get m "motor" (VDict []) = Ok mm ->
          py_get mm "capability" (VDict []) = Ok cap ->
          motor_capability c = Some cap).
Proof.
  intros init info ask Hinit Hinfo (i & d & Hi & Hd) Hex.
  set (self1 := mkController (host self) (user self) (password self)
                  (Some (client_of self)) (motor_capability self)).
  destruct (_get_motor_capability_connected self1 (client_of self)
              (logged w [init; info]) eq_refl) as (c & Hcap & Hsame & Htapo & Hkeep & Hset).
  { exact Hex. }
  simpl in Hkeep, Hset.
  destruct Hsame as (Hh & Hu & Hp). simpl in Hh, Hu, Hp, Htapo.
  exists c. split; [|by repeat split].
  unfold connect, try_except at 1, bind at 1.
  rewrite perform_eq. fold init. rewrite Hinit. simpl.
  unfold try_except, bind at 1. unfold tapo_call at 1. simpl.
  rewrite perform_eq. simpl. fold info. rewrite Hinfo. simpl.
  unfold bind at 1, lift at 1. rewrite Hi.
  unfold bind at 1, lift at 1. rewrite Hd.
  unfold bind at 1, lift at 1. simpl.
  unfold bind at 1, lift at 1. simpl.
  unfold bind at 1. rewrite logged_logged. simpl.
  unfold self1, client_of in Hcap. rewrite Hcap.
  unfold ret. by rewrite logged_logged.
Qed.



(** X6: on an empty list of presets [start_patrol] spins: whatever the
    fuel it is still running, and it has made no call and no sleep. *)
Theorem patrol_empty_list_spins
    (self : TapoC225Controller) (interval_seconds : Z) (fuel : nat) (w : World) :
  start_patrol fuel self [] interval_seconds w = (None, w).
Proof.
  unfold start_patrol.
  assert (patrol_loop fuel self [] interval_seconds w = (None, w)) as ->; [|done].
  induction fuel as [|fuel IH]; simpl; [done|apply IH].
Qed.

(** X7: with a negative dwell the patrol makes its first move and then
    stops: [time.sleep] refuses the negative length, so [start_patrol]
    raises [ValueError] in the world the first [goto_preset] left. *)
Theorem patrol_negative_interval_stops_after_first_move
    (self : TapoC225Controller) (p : pyval) (rest : list pyval)
    (interval_seconds : Z) (fuel : nat) (v : pyval) (w w1 : World) :
  interval_seconds < 0 ->
  goto_preset self p w = (Ok v, w1) ->
  start_patrol (S fuel) self (p :: rest) interval_seconds w
  = (Some (Raise (ValueError "sleep length must be non-negative")), w1).
Proof.
  intros Hneg Hgoto. unfold start_patrol. simpl.
  unfold patrol_pass. rewrite for_each_cons.
  unfold patrol_visit at 1, bind. rewrite Hgoto.
  unfold sleep. apply Z.ltb_lt in Hneg. by rewrite Hneg.
Qed.

(** * Further properties of the registry *)

Lemma Dict_get_None {A} (d : list (string * A)) (k : string) :
  Dict.get d k = None <-> k ∉ Dict.keys d.
Proof.
  unfold Dict.keys. induction d as [|[k0 v0] d IH]; simpl.
  - split; [intros _; apply not_elem_of_nil|done].
  - rewrite not_elem_of_cons. destruct (String.eqb k0 k) eqn:Hk.
    + apply String.eqb_eq in Hk as ->. split; [done|]. by intros [? _].
    + apply String.eqb_neq in Hk. rewrite IH. split; [|tauto].
      intros Hn. split; [congruence|done].
Qed.

Lemma Dict_set_fresh {A} (d : list (string * A)) (k : string) (v : A) :
  Dict.get d k = None -> Dict.set d k v = d ++ [(k, v)].
Proof.
  induction d as [|[k0 v0] d IH]; simpl; [done|].
  destruct (String.eqb k0 k); [done|]. intros Hd. by rewrite IH.
Qed.

Lemma Dict_get_elem {A} (d : list (string * A)) (k : string) (v : A) :
  Dict.get d k = Some v -> (k, v) ∈ d.
Proof.
  induction d as [|[k0 v0] d IH]; simpl; [done|].
  destruct (String.eqb k0 k) eqn:Hk.
  - apply String.eqb_eq in Hk as ->. intros [= ->]. apply elem_of_cons. by left.
  - intros Hd. apply elem_of_cons. right. by apply IH.
Qed.

Lemma Dict_del_elem {A} (d : list (string * A)) (k k' : string) (v : A) :
  (k', v) ∈ Dict.del d k -> (k', v) ∈ d.
Proof.
  induction d as [|[k0 v0] d IH]; simpl; [done|].
  destruct (String.eqb k0 k); rewrite !elem_of_cons; [by right|].
  intros [?|?]; [by left|right; by apply IH].
Qed.

Lemma Dict_get_del_ne {A} (d : list (string * A)) (k k' : string) :
  k' <> k -> Dict.get (Dict.del d k) k' = Dict.get d k'.
Proof.
  intros Hne. induction d as [|[k0 v0] d IH]; simpl; [done|].
  destruct (String.eqb k0 k) eqn:Hk; simpl.
  - apply String.eqb_eq in Hk as ->.
    assert (String.eqb k k' = false) as -> by (apply String.eqb_neq; congruence).
    done.
  - by rewrite IH.
Qed.

Lemma filter_keeps_all {A} (P : A -> Prop) `{forall x, Decision (P x)} (l : list A) :
  Forall P l -> filter P l = l.
Proof.
  induction 1 as [|x l Hx Hl IH]; [done|].
  rewrite filter_cons_True by done. by rewrite IH.
Qed.

Lemma Dict_keys_del {A} (d : list (string * A)) (k : string) :
  NoDup (Dict.keys d) ->
  Dict.keys (Dict.del d k) = filter (fun k' => k' <> k) (Dict.keys d).
Proof.
  unfold Dict.keys. induction d as [|[k0 v0] d IH]; simpl; [done|].
  intros Hnd. apply NoDup_cons in Hnd as [Hnotin Hnd].
  destruct (String.eqb k0 k) eqn:Hk.
  - apply String.eqb_eq in Hk as ->.
    rewrite filter_cons_False by (intros Hc; by apply Hc).
    symmetry. apply filter_keeps_all. apply Forall_forall. intros x Hx ->. done.
  - apply String.eqb_neq in Hk. rewrite filter_cons_True by done.
    simpl. by rewrite IH.
Qed.

(** X8: adding a camera under an id that is not registered.  When the
    connection succeeds ([connect] returns [True]) the call returns [True],
    the id goes last in the registry, its session is the one [connect]
    produced, aiming at the given host with the given credentials and
    holding the client built for them, and the other entries are as
    before; when it fails the call returns [False] and the registry is
    unchanged; only an interrupt is raised. *)
Theorem add_camera_new_id_appends
    (self : TapoMultiCameraManager) (camera_id h u p : string) (w : World) :
  get_camera self camera_id = None ->
  match connect (new_controller h u p) w with
  | (Ok (true, c), w') =>
      exists self',
        add_camera self camera_id h u p w = (Ok (true, self'), w')
        /\ list_cameras self' = list_cameras self ++ [camera_id]
        /\ get_camera self' camera_id = Some c
        /\ host c = h /\ user c = u /\ password c = p
        /\ tapo c = Some (mkTapo h u p)
        /\ (forall id, id <> camera_id -> get_camera self' id = get_camera self id)
  | (Ok (false, _), w') =>
      add_camera self camera_id h u p w = (Ok (false, self), w')
  | (Raise e, w') =>
      add_camera self camera_id h u p w = (Raise e, w')
      /\ is_Exception e = false
  end.
Proof.
  intros Hnew. unfold add_camera, bind.
  pose proof (connect_fields (new_controller h u p) w) as Hf.
  pose proof (connect_catches_all (new_controller h u p) w) as Hc.
  destruct (connect (new_controller h u p) w) as [[[b c]|e] w']; [|done].
  simpl in *. destruct Hf as [(Hh & Hu & Hp) Ht].
  destruct b; simpl; [|done].
  eexists. split; [reflexivity|].
  unfold get_camera, list_cameras in *. simpl.
  split.
  { rewrite Dict_set_fresh by done. unfold Dict.keys. by rewrite map_app. }
  split; [by rewrite Dict_get_set_eq|].
  do 3 (split; [done|]). split; [by rewrite Ht|].
  intros id Hid. by apply Dict_get_set_ne.
Qed.

(** X9: the registry invariant.  The ids are unique and every registered
    session holds the client built for its own host, user and password:
    this holds of a new manager and is kept by [add_camera], whatever it
    returns, and by [remove_camera]. *)
Theorem registry_invariant_kept :
  registry_ok new_manager
  /\ (forall self camera_id h u p w,
        registry_ok self ->
        match add_camera self camera_id h u p w with
        | (Ok (_, self'), _) => registry_ok self'
        | (Raise _, _) => True
        end)
  /\ (forall self camera_id,
        registry_ok self -> registry_ok (remove_camera self camera_id)).
Proof.
  split; [|split].
  - split; [constructor|]. intros id c Hin. by apply elem_of_nil in Hin.
  - intros self camera_id h u p w [Hnd Hcl]. unfold add_camera, bind.
    pose proof (connect_fields (new_controller h u p) w) as Hf.
    destruct (connect (new_controller h u p) w) as [[[b c]|e] w']; [|done].
    simpl in *. destruct Hf as [(Hh & Hu & Hp) Ht].
    destruct b; simpl; [|done].
    split.
    + unfold list_cameras in *. simpl. by apply Dict_keys_set_NoDup.
    + simpl. intros id c' Hin.
      apply Dict_set_elem_inv in Hin as [[-> ->]|Hin]; [|by eauto].
      rewrite Ht by done. unfold client_of. by rewrite Hh, Hu, Hp.
  - intros self camera_id [Hnd Hcl]. unfold remove_camera.
    destruct (Dict.mem (cameras self) camera_id); [|done].
    split.
    + unfold list_cameras in *. simpl. rewrite Dict_keys_del by done.
      by apply NoDup_filter.
    + simpl. intros id c Hin. apply (Hcl id). by eapply Dict_del_elem.
Qed.

(** X10: [remove_camera] on a registry with unique ids: the removed id
    is no longer found, every other id is found as before, the remaining
    ids keep their order, and removing an id that is not registered
    changes nothing. *)
Theorem remove_camera_forgets_only_that_id
    (self : TapoMultiCameraManager) (camera_id : string) :
  NoDup (list_cameras self) ->
  get_camera (remove_camera self camera_id) camera_id = None
  /\ (forall id, id <> camera_id ->
        get_camera (remove_camera self camera_id) id = get_camera self id)
  /\ list_cameras (remove_camera self camera_id)
     = filter (fun id => id <> camera_id) (list_cameras self)
  /\ (get_camera self camera_id = None -> remove_camera self camera_id = self).
Proof.
  intros Hnd. unfold remove_camera, get_camera, list_cameras, Dict.mem in *.
  destruct (Dict.get (cameras self) camera_id) as [c|] eqn:Hget; simpl.
  - split; [|split; [|split]].
    + apply Dict_get_None. rewrite Dict_keys_del by done.
      intros Hin. apply list_elem_of_filter in Hin as [Hne _]. done.
    + intros id Hid. by apply Dict_get_del_ne.
    + by apply Dict_keys_del.
    + done.
  - split; [done|]. split; [done|]. split; [|done].
    symmetry. apply filter_keeps_all. apply Forall_forall.
    intros x Hx ->. by apply Dict_get_None in Hget.
Qed.

(** * Further properties of the batch operations *)

(** One camera of a batch that makes a single call on the client. *)
Lemma batch_single_call_step (ctrl : TapoC225Controller) (c : call) (w : World) :
  only_Exceptions ->
  try_except (let! _ := tapo_call ctrl c in ret tt) is_Exception (fun _ => ret tt) w
  = (Ok tt, logged w (match tapo ctrl with
                      | Some t => [EDevice (tapo_host t) c]
                      | None => []
                      end)).
Proof.
  intros Hex. unfold try_except, bind, tapo_call.
  destruct (tapo ctrl) as [t|]; simpl; [|by rewrite logged_nil].
  rewrite perform_eq.
  destruct (env (trace w) (EDevice (tapo_host t) c)) as [v|e] eqn:He; simpl; [done|].
  by rewrite (Hex _ _ _ He).
Qed.

Lemma batch_single_call (cams : list (string * TapoC225Controller)) (c : call)
    (w : World) :
  only_Exceptions ->
  for_each cams (fun item =>
    try_except (let! _ := tapo_call (snd item) c in ret tt)
               is_Exception (fun _ => ret tt)) w
  = (Ok tt, logged w (batch_calls cams c)).
Proof.
  intros Hex. revert w. induction cams as [|[id ctrl] cams IH]; intros w.
  - simpl. unfold ret. by rewrite logged_nil.
  - rewrite for_each_cons. cbn [snd].
    rewrite batch_single_call_step by done. rewrite IH.
    by rewrite logged_logged.
Qed.

(** X11: when no interrupt arrives, [calibrate_all] returns normally
    whatever the cameras answer, and its events are exactly one
    [calibrateMotor] per session that holds a client, in registry order:
    like [calibrate], the batch reads and writes no privacy state. *)
Theorem calibrate_all_one_call_per_camera
    (self : TapoMultiCameraManager) (w : World) :
  only_Exceptions ->
  calibrate_all self w
  = (Ok tt, logged w (batch_calls (cameras self) calibrateMotor)).
Proof. intros Hex. by apply batch_single_call. Qed.

(** X12: when no interrupt arrives, [enable_privacy_all],
    [disable_privacy_all] and [set_auto_track_all] return normally whatever
    the cameras answer, each making exactly one call per session that holds
    a client, in registry order: [setPrivacyMode True],
    [setPrivacyMode False] and [setAutoTrackTarget enabled]. *)
Theorem privacy_and_tracking_batches
    (self : TapoMultiCameraManager) (enabled : bool) (w : World) :
  only_Exceptions ->
  enable_privacy_all self w
  = (Ok tt, logged w (batch_calls (cameras self) (setPrivacyMode true)))
  /\ disable_privacy_all self w
     = (Ok tt, logged w (batch_calls (cameras self) (setPrivacyMode false)))
  /\ set_auto_track_all self enabled w
     = (Ok tt, logged w (batch_calls (cameras self) (setAutoTrackTarget enabled))).
Proof. intros Hex. repeat split; by apply batch_single_call. Qed.

Lemma goto_preset_all_step (ctrl : TapoC225Controller) (preset_id : pyval)
    (w : World) :
  only_Exceptions ->
  exists tr,
    try_except (let! _ := goto_preset ctrl preset_id in ret tt)
               is_Exception (fun _ => ret tt) w
    = (Ok tt, logged w tr)
    /\ goto_calls tr = match tapo ctrl with
                       | Some t => [(tapo_host t, py_str preset_id)]
                       | None => []
                       end.
Proof.
  intros Hex. destruct (tapo ctrl) as [t|] eqn:Ht.
  - destruct (guard_returns ctrl t w Ht Hex) as (b & g & Hguard & Hg).
    set (cmd := EDevice (tapo_host t) (setPreset (py_str preset_id))).
    set (rd := EDevice (tapo_host t) getPrivacyMode) in *.
    exists (rd :: g ++ [cmd]). split.
    + unfold try_except, goto_preset, bind. rewrite Hguard.
      rewrite (tapo_call_connected _ t) by done. simpl. fold cmd.
      rewrite logged_logged.
      destruct (env _ cmd) as [v|e] eqn:Hcmd; simpl; [done|].
      by rewrite (Hex _ _ _ Hcmd).
    + destruct Hg as [->|[->| ->]]; done.
  - exists []. split; [|done].
    unfold try_except, goto_preset, ensure_privacy_mode_off, try_except, bind,
      tapo_call. rewrite Ht. simpl. by rewrite logged_nil.
Qed.

(** X13: when no interrupt arrives, [goto_preset_all] returns normally
    whatever the cameras answer, and [setPreset] with the given id is
    issued exactly once to every session that holds a client, in registry
    order: a camera that fails does not keep the others from being asked. *)
Theorem goto_preset_all_reaches_every_camera
    (self : TapoMultiCameraManager) (preset_id : pyval) (w : World) :
  only_Exceptions ->
  exists tr,
    goto_preset_all self preset_id w = (Ok tt, logged w tr)
    /\ goto_calls tr
       = flat_map (fun item => match tapo (snd item) with
                               | Some t => [(tapo_host t, py_str preset_id)]
                               | None => []
                               end) (cameras self).
Proof.
  intros Hex. unfold goto_preset_all. revert w.
  induction (cameras self) as [|[id ctrl] cams IH]; intros w.
  - exists []. simpl. unfold ret. by rewrite logged_nil.
  - destruct (goto_preset_all_step ctrl preset_id w Hex) as (tr1 & Hstep & Hc1).
    rewrite for_each_cons. cbn [snd]. rewrite Hstep.
    destruct (IH (logged w tr1)) as (tr2 & Hrest & Hc2).
    rewrite Hrest. exists (tr1 ++ tr2). split; [by rewrite logged_logged|].
    rewrite goto_calls_app, Hc1, Hc2. done.
Qed.

(** X14: the values of [get_all_presets].  On a registry with unique
    ids and with no interrupt, the call makes exactly one [getPresets] per
    session that holds a client, in registry order, and the entry of each
    id is exactly what its camera answered at its turn when that answer has
    a length; it is the empty dict when the camera raised, when the answer
    has no length, and when the session holds no client. *)
Theorem get_all_presets_values (self : TapoMultiCameraManager) (w : World) :
  only_Exceptions ->
  NoDup (list_cameras self) ->
  exists d,
    get_all_presets self w
    = (Ok d, logged w (batch_calls (cameras self) getPresets))
    /\ forall before id c after,
         cameras self = before ++ (id, c) :: after ->
         Dict.get d id
         = Some (stored_presets
                   (asked_presets c (trace w ++ batch_calls before getPresets))).
Proof.
  intros Hex Hnd. unfold get_all_presets.
  destruct (get_all_presets_loop_exact (cameras self) Hex Hnd [] w)
    as (d & Hrun & _ & Hturn).
  by exists d.
Qed.

(** * Further properties of the scenes *)

Lemma create_scene_result (scene_name : string)
    (camera_presets : list (string * string)) (d : list (string * pyval))
    (w : World) :
  scenes_doc w = Some d ->
  create_scene scene_name camera_presets w
  = (Ok tt,
     mkWorld (trace w)
       (<[scenes_file := FJson (VDict (Dict.set d scene_name
                                         (str_dict camera_presets)))]> (files w))
       (stdout w)).
Proof.
  intros Hdoc.
  unfold create_scene, bind, try_except, json_load, scenes_doc in *.
  destruct (files w !! scenes_file) as [[[]|]|]; simplify_eq; done.
Qed.

(** X15: when the scene file holds text that is not JSON, or a JSON value
    that is not an object, [create_scene] raises ([JSONDecodeError] or
    [TypeError]) before it opens the file for writing: the world, and with
    it the stored document, is exactly as before. *)
Theorem create_scene_rejects_corrupt_document
    (scene_name : string) (camera_presets : list (string * string)) (w : World) :
  scenes_doc w = None ->
  exists e,
    create_scene scene_name camera_presets w = (Raise e, w)
    /\ (e = JSONDecodeError \/ e = TypeError).
Proof.
  intros Hdoc.
  unfold create_scene, bind, try_except, json_load, scenes_doc in *.
  destruct (files w !! scenes_file) as [[[]|]|]; simplify_eq; simpl;
    eexists; (split; [reflexivity|]); auto.
Qed.

(** X16: on a well-formed scene document, creating a scene under a name
    and then creating another under the same name leaves the world exactly
    as creating the second alone: the last mapping wins, nothing of the
    first remains, and creating the same scene twice is the same as once. *)
Theorem create_scene_overwrites
    (scene_name : string) (first second : list (string * string))
    (d : list (string * pyval)) (w : World) :
  scenes_doc w = Some d ->
  snd (create_scene scene_name second (snd (create_scene scene_name first w)))
  = snd (create_scene scene_name second w).
Proof.
  intros Hdoc.
  rewrite (create_scene_result scene_name first d w Hdoc). simpl.
  rewrite (create_scene_result scene_name second d w Hdoc). simpl.
  erewrite create_scene_result.
  2:{ unfold scenes_doc. simpl. by rewrite lookup_insert_eq. }
  simpl. by rewrite insert_insert_eq, Dict_set_set.
Qed.

Lemma preserved_bind {A B X} (f : World -> X) (m : M A) (k : A -> M B) :
  (forall w, f (snd (m w)) = f w) ->
  (forall a w, f (snd (k a w)) = f w) ->
  forall w, f (snd (bind m k w)) = f w.
Proof.
  intros Hm Hk w. unfold bind. specialize (Hm w).
  destruct (m w) as [[a|e] w']; simpl in *; [by rewrite Hk|done].
Qed.

Lemma preserved_try {A X} (f : World -> X) (m : M A) (c : exn -> bool)
    (h : exn -> M A) :
  (forall w, f (snd (m w)) = f w) ->
  (forall e w, f (snd (h e w)) = f w) ->
  forall w, f (snd (try_except m c h w)) = f w.
Proof.
  intros Hm Hh w. unfold try_except. specialize (Hm w).
  destruct (m w) as [[a|e] w']; simpl in *; [done|].
  destruct (c e); simpl; [by rewrite Hh|done].
Qed.

Lemma preserved_for_each {A X} (f : World -> X) (xs : list A) (body : A -> M unit) :
  (forall x w, f (snd (body x w)) = f w) ->
  forall w, f (snd (for_each xs body w)) = f w.
Proof.
  intros Hb. induction xs as [|x xs IH]; intros w; simpl; [done|].
  by apply preserved_bind.
Qed.

Lemma goto_preset_keeps_files (ctrl : TapoC225Controller) (preset_id : pyval) :
  keeps_files (goto_preset ctrl preset_id).
Proof.
  assert (forall c, keeps_files (tapo_call ctrl c)) as Hcall.
  { intros c w. unfold tapo_call. destruct (tapo ctrl); [|done].
    rewrite perform_eq. done. }
  unfold keeps_files in *. unfold goto_preset. apply (preserved_bind files); [|intros _; apply Hcall].
  unfold ensure_privacy_mode_off. apply (preserved_try files); [|done].
  apply (preserved_bind files); [apply Hcall|intros privacy].
  apply (preserved_bind files); [done|intros enabled].
  apply (preserved_bind files); [|done].
  destruct (py_eq_str enabled "on"); [|done].
  apply (preserved_bind files); [apply Hcall|intros _].
  intros w. unfold sleep. simpl. unfold bind. rewrite perform_eq.
  by destruct (answer _).
Qed.

(** X17: the scene queries are read-only.  [list_scenes] changes neither
    the files nor the trace (it never contacts a camera), and
    [apply_scene], whatever it does to the cameras, leaves every file as it
    was. *)
Theorem scene_queries_are_read_only
    (self : TapoMultiCameraManager) (scene_name : string) :
  keeps_files list_scenes /\ keeps_trace list_scenes
  /\ keeps_files (apply_scene self scene_name).
Proof.
  unfold keeps_files, keeps_trace.
  assert (forall X (f : World -> X),
            (forall w out, f (printed w out) = f w) ->
            forall w, f (snd (list_scenes w)) = f w) as Hlist.
  { intros X f Hprint. unfold list_scenes.
    apply (preserved_try f).
    - apply (preserved_bind f).
      { intros w. unfold json_load. by destruct (files w !! scenes_file) as [[]|]. }
      intros scenes. apply (preserved_bind f); [done|intros n].
      apply (preserved_bind f); [intros w; apply Hprint|intros _].
      apply (preserved_bind f); [done|intros items].
      apply (preserved_bind f); [|done].
      apply preserved_for_each. intros item.
      apply (preserved_bind f); [intros w; apply Hprint|intros _].
      apply (preserved_bind f); [done|intros pairs].
      apply preserved_for_each. intros pair w. apply Hprint.
    - intros e. apply (preserved_bind f); [intros w; apply Hprint|done]. }
  split; [by apply (Hlist _ files)|]. split; [by apply (Hlist _ trace)|].
  unfold apply_scene. apply (preserved_bind files).
  - apply (preserved_try files).
    + apply (preserved_bind files); [|done].
      intros w. unfold json_load. by destruct (files w !! scenes_file) as [[]|].
    + intros e. by apply (preserved_bind files).
  - intros [scenes|]; [|done].
    apply (preserved_bind files); [done|intros present].
    destruct (negb present); [done|].
    apply (preserved_bind files); [done|intros _].
    apply (preserved_bind files); [done|intros camera_presets].
    apply (preserved_bind files); [done|intros items].
    apply preserved_for_each. intros item. unfold apply_scene_entry.
    destruct (Dict.get (cameras self) (fst item)) as [ctrl|]; [|done].
    apply (preserved_try files); [|done].
    apply (preserved_bind files); [apply (goto_preset_keeps_files ctrl)|done].
Qed.

(** X18: [apply_scene] with nothing to apply.  When the scene file is
    missing, or holds an object without the requested name, the call
    prints its one line and returns normally without any contact with a
    camera. *)
Theorem apply_scene_without_scene
    (self : TapoMultiCameraManager) (scene_name : string) (w : World) :
  (files w !! scenes_file = None ->
   apply_scene self scene_name w = (Ok tt, printed w [OutScenesFileMissing]))
  /\ (forall d, files w !! scenes_file = Some (FJson (VDict d)) ->
        Dict.get d scene_name = None ->
        apply_scene self scene_name w
        = (Ok tt, printed w [OutSceneMissing scene_name])).
Proof.
  split.
  - intros Hfile. unfold apply_scene, bind, try_except, json_load.
    by rewrite Hfile.
  - intros d Hfile Hscene. unfold apply_scene, bind, try_except, json_load.
    rewrite Hfile. simpl. unfold Dict.mem. by rewrite Hscene.
Qed.

(** X19: creating a scene and then applying it.  On a well-formed scene
    document and with no interrupt, [create_scene S M] followed by
    [apply_scene S] sends [setPreset] to every registered camera of [M]
    with the preset id [M] gives it, reports every other camera of [M] as
    not connected, and gives one report line per camera of [M]. *)
Theorem create_then_apply_scene
    (self : TapoMultiCameraManager) (scene_name : string)
    (camera_presets : list (string * string))
    (d : list (string * pyval)) (w : World) :
  scenes_doc w = Some d ->
  only_Exceptions ->
  exists w1 tr out,
    create_scene scene_name camera_presets w = (Ok tt, w1)
    /\ apply_scene self scene_name w1 = (Ok tt, printed (logged w1 tr) out)
    /\ goto_calls tr = expected_gotos (cameras self) camera_presets
    /\ not_connected_reports out = expected_skips (cameras self) camera_presets
    /\ device_reports out = map fst camera_presets.
Proof.
  intros Hdoc Hex.
  rewrite (create_scene_result scene_name camera_presets d w Hdoc).
  set (w1 := mkWorld _ _ _).
  destruct (apply_scene_loop self camera_presets
              (printed w1 [OutApplyScene scene_name]) Hex)
    as (tr & out & Hloop & Hc & Hn & Hd).
  exists w1, tr, (OutApplyScene scene_name :: out).
  split; [done|]. split; [|by rewrite <- Hn, <- Hd].
  unfold apply_scene, bind at 1, try_except, bind at 1, json_load.
  assert (files w1 !! scenes_file
          = Some (FJson (VDict (Dict.set d scene_name (str_dict camera_presets)))))
    as -> by (unfold w1; simpl; by rewrite lookup_insert_eq).
  simpl. unfold Dict.mem. rewrite Dict_get_set_eq.
  unfold bind, lift, print. simpl.
  rewrite Hloop. unfold printed, logged. simpl. by rewrite <- app_assoc.
Qed.

(** * Saving and loading the camera configuration *)

(** With unique ids the config is the list of entries, in order. *)
Lemma build_config_NoDup (items : list (string * TapoC225Controller)) :
  NoDup (Dict.keys items) ->
  build_config items = map (fun item => (fst item, config_entry (snd item))) items.
Proof.
  unfold build_config.
  assert (forall acc,
    NoDup (Dict.keys items) ->
    (forall k, k ∈ Dict.keys items -> Dict.get acc k = None) ->
    fold_left (fun config item =>
                 Dict.set config (fst item) (config_entry (snd item))) items acc
    = acc ++ map (fun item => (fst item, config_entry (snd item))) items) as H.
  { induction items as [|[id c] items IH]; intros acc Hnd Hfresh; simpl.
    - by rewrite app_nil_r.
    - apply NoDup_cons in Hnd as [Hnotin Hnd].
      rewrite Dict_set_fresh by (apply Hfresh; apply elem_of_cons; by left).
      rewrite IH; [by rewrite <- app_assoc|done|].
      intros k Hk. apply Dict_get_None. unfold Dict.keys. rewrite map_app. simpl.
      rewrite elem_of_app, list_elem_of_singleton. intros [Hin| ->].
      + apply (Dict_get_None acc k); [|done].
        apply Hfresh. apply elem_of_cons. by right.
      + done. }
  intros Hnd. by rewrite H.
Qed.

Lemma add_camera_connects (self : TapoMultiCameraManager)
    (camera_id h u p : string) (w : World) :
  always_connects ->
  exists c w',
    add_camera self camera_id h u p w
    = (Ok (true, mkManager (Dict.set (cameras self) camera_id c) (config_file self)),
       w')
    /\ host c = h /\ user c = u /\ password c = p
    /\ tapo c = Some (client_of c).
Proof.
  intros Hconn. unfold add_camera, bind.
  destruct (Hconn (new_controller h u p) w) as (c & w' & Hc).
  pose proof (connect_fields (new_controller h u p) w) as Hf.
  rewrite Hc in *. simpl in *. destruct Hf as [(Hh & Hu & Hp) Ht].
  exists c, w'. split; [done|]. repeat split; try done.
  rewrite Ht by done. unfold client_of. by rewrite Hh, Hu, Hp.
Qed.

(** Loading the entries [save_config] wrote for [items] into a registry
    that knows none of their ids. *)
Lemma load_config_loop_saved
    (untyped : TapoMultiCameraManager -> string -> pyval -> pyval -> string ->
               M (bool * TapoMultiCameraManager))
    (p : string) (items : list (string * TapoC225Controller)) :
  always_connects ->
  forall (self : TapoMultiCameraManager) (w : World),
    NoDup (Dict.keys items) ->
    (forall k, k ∈ Dict.keys items -> get_camera self k = None) ->
    exists self' w',
      load_config_loop untyped
        (map (fun item => (fst item, config_entry (snd item))) items) p self w
      = ((Ok tt, self'), w')
      /\ public_view (cameras self') = public_view (cameras self) ++ public_view items
      /\ (forall id c, (id, c) ∈ cameras self' ->
            (id, c) ∈ cameras self
            \/ (password c = p /\ tapo c = Some (client_of c))).
Proof.
  intros Hconn. induction items as [|[id c0] items IH]; intros self w Hnd Hfresh.
  - exists self, w. simpl. rewrite app_nil_r. split; [done|]. split; [done|]. by left.
  - apply NoDup_cons in Hnd as [Hnotin Hnd].
    destruct (add_camera_connects self id (host c0) (user c0) p w Hconn)
      as (c & w1 & Hadd & Hh & Hu & Hp & Ht).
    assert (get_camera self id = None) as Hid
      by (apply Hfresh; apply elem_of_cons; by left).
    unfold get_camera in Hid.
    destruct (IH (mkManager (Dict.set (cameras self) id c) (config_file self)) w1 Hnd)
      as (self' & w' & Hloop & Hview & Hall).
    { intros k Hk. unfold get_camera. simpl. rewrite Dict_get_set_ne.
      - apply Hfresh. apply elem_of_cons. by right.
      - intros ->. done. }
    exists self', w'. split; [|split].
    + cbn [map fst snd load_config_loop]. unfold config_entry at 1 2. simpl.
      unfold add_camera_from_config. rewrite Hadd. exact Hloop.
    + rewrite Hview. simpl. rewrite Dict_set_fresh by done.
      unfold public_view. rewrite map_app. simpl. rewrite <- app_assoc. simpl.
      by rewrite Hh, Hu.
    + intros id' c' Hin. destruct (Hall id' c' Hin) as [Hold|Hnew]; [|by right].
      simpl in Hold. apply Dict_set_elem_inv in Hold as [[-> ->]|Hold];
        [by right|by left].
Qed.

(** X20: saving and loading the configuration.  For a registry with
    unique ids, and when every connection attempt succeeds, [load_config]
    on the file [save_config] wrote, into a new manager, returns normally
    and registers the same ids with the same hosts and users in the same
    order; every session carries the password given to [load_config], not
    the one it was saved from, and holds its own client. *)
Theorem save_then_load_config_round_trip
    (untyped : TapoMultiCameraManager -> string -> pyval -> pyval -> string ->
               M (bool * TapoMultiCameraManager))
    (saved : TapoMultiCameraManager) (filename p : string) (w : World) :
  NoDup (list_cameras saved) ->
  always_connects ->
  exists loaded w',
    load_config untyped new_manager (Some filename) p
      (snd (save_config saved (Some filename) w))
    = ((Ok tt, loaded), w')
    /\ public_view (cameras loaded) = public_view (cameras saved)
    /\ (forall id c, (id, c) ∈ cameras loaded ->
          password c = p /\ tapo c = Some (client_of c)).
Proof.
  intros Hnd Hconn. unfold list_cameras in Hnd.
  destruct (load_config_loop_saved untyped p (cameras saved) Hconn new_manager
              (snd (save_config saved (Some filename) w)) Hnd)
    as (loaded & w' & Hloop & Hview & Hall); [done|].
  exists loaded, w'. split; [|split].
  - unfold load_config, json_load, save_config, json_dump in *. simpl in *.
    rewrite lookup_insert_eq. simpl.
    rewrite !build_config_NoDup by done.
    rewrite build_config_NoDup in Hloop by done.
    by rewrite Hloop.
  - by rewrite Hview.
  - intros id c Hin. destruct (Hall id c Hin) as [Hold|Hnew]; [|done].
    by apply elem_of_nil in Hold.
Qed.

Lemma load_config_loop_app
    (untyped : TapoMultiCameraManager -> string -> pyval -> pyval -> string ->
               M (bool * TapoMultiCameraManager))
    (p : string) (good rest : list (string * pyval)) :
  forall (self self1 : TapoMultiCameraManager) (w w1 : World),
    load_config_loop untyped good p self w = ((Ok tt, self1), w1) ->
    load_config_loop untyped (good ++ rest) p self w
    = load_config_loop untyped rest p self1 w1.
Proof.
  induction good as [|[id cfg] good IH]; intros self self1 w w1 Hgood; simpl in *.
  - by simplify_eq.
  - destruct (py_getitem cfg "host") as [h|e]; [|discriminate].
    destruct (py_get cfg "user" (VStr "admin")) as [u|e]; [|discriminate].
    destruct (add_camera_from_config untyped self id h u p w) as [[r|e] w0];
      [|discriminate].
    by apply IH.
Qed.

(** X21: [load_config] at its edges.  On a missing file it returns
    normally with the registry and the world untouched.  On a document
    whose entry for some id is an object without "host" it raises
    [KeyError] at that entry without contacting that camera, and the
    cameras of the entries before it stay registered. *)
Theorem load_config_missing_file_and_missing_host
    (untyped : TapoMultiCameraManager -> string -> pyval -> pyval -> string ->
               M (bool * TapoMultiCameraManager))
    (self : TapoMultiCameraManager) (filename p : string) (w : World) :
  (files w !! filename = None ->
   load_config untyped self (Some filename) p w = ((Ok tt, self), w))
  /\ (forall good id d rest self1 w1,
        files w !! filename = Some (FJson (VDict (good ++ (id, VDict d) :: rest))) ->
        Dict.get d "host" = None ->
        load_config_loop untyped good p self w = ((Ok tt, self1), w1) ->
        load_config untyped self (Some filename) p w
        = ((Raise (KeyError "host"), self1), w1)).
Proof.
  split.
  - intros Hfile. unfold load_config, json_load. by rewrite Hfile.
  - intros good id d rest self1 w1 Hfile Hhost Hgood.
    unfold load_config, json_load. rewrite Hfile. simpl.
    rewrite (load_config_loop_app untyped p good _ self self1 w w1 Hgood).
    simpl. by rewrite Hhost.
Qed.

(** X22: a positional operation stays with its own camera.  On a
    connected controller an accepted operation appends at most four
    events; every call among them goes to the host of the controller's own
    client, none of them switches privacy mode on, and the only sleep is
    the settle delay of one second. *)
Theorem operation_confined_to_own_camera
    (self : TapoC225Controller) (t : Tapo) (op : ptz_op) (w : World) :
  tapo self = Some t -> op_accepts op ->
  exists evs,
    trace (snd (run_op self op w)) = trace w ++ evs
    /\ (length evs <= 4)%nat
    /\ Forall (fun ev => match ev with
                         | EDevice h c => h = tapo_host t /\ c <> setPrivacyMode true
                         | ESleep seconds => seconds = 1
                         end) evs.
Proof.
  intros Ht Hacc.
  assert (op = OpCalibrate \/ op <> OpCalibrate) as [->|Hop]
    by (destruct op; (by left) || (by right)).
  - exists [EDevice (tapo_host t) calibrateMotor]. simpl. unfold calibrate.
    rewrite (tapo_call_connected _ t) by done. simpl.
    split; [done|]. split; [lia|]. by repeat constructor.
  - rewrite run_op_guarded by done. unfold bind.
    destruct (guard_shape self t w Ht) as (r & g & -> & Hg & _).
    assert (op_call op <> setPrivacyMode true) as Hcall by (by destruct op).
    destruct r as [b|e]; simpl.
    + rewrite (tapo_call_connected _ t) by done. simpl. rewrite <- app_assoc.
      eexists. split; [reflexivity|].
      destruct Hg as [->|[->| ->]]; simpl; (split; [lia|]); by repeat constructor.
    + eexists. split; [reflexivity|].
      destruct Hg as [->|[->| ->]]; simpl; (split; [lia|]); by repeat constructor.
Qed.

(** X23: [list_scenes] at its edges.  A missing scene file gives the
    empty list and the line saying so; a file that is not JSON is not
    taken for "no scenes": [JSONDecodeError] reaches the caller, nothing
    printed; and a well-formed document gives its scene names in document
    order under a header counting them. *)
Theorem list_scenes_edges (w : World) :
  (files w !! scenes_file = None ->
   list_scenes w = (Ok [], printed w [OutNoScenes]))
  /\ (files w !! scenes_file = Some FText ->
      list_scenes w = (Raise JSONDecodeError, w))
  /\ (forall d, files w !! scenes_file = Some (FJson (VDict d)) ->
        Forall (fun item => is_dict (snd item)) d ->
        exists out,
          list_scenes w
          = (Ok (Dict.keys d), printed w (OutScenesHeader (length d) :: out))).
Proof.
  split; [|split].
  - intros Hfile. unfold list_scenes, try_except, bind, json_load.
    by rewrite Hfile.
  - intros Hfile. unfold list_scenes, try_except, bind, json_load.
    by rewrite Hfile.
  - intros d Hfile Hall.
    destruct (list_scenes_loop d (printed w [OutScenesHeader (length d)]) Hall)
      as (out & Hloop & _).
    exists out. unfold list_scenes, try_except, bind at 1, json_load.
    rewrite Hfile.
    unfold bind at 1, lift at 1. simpl.
    unfold bind at 1, print at 1. unfold bind at 1, lift at 1. simpl.
    unfold bind at 1. rewrite Hloop. unfold ret.
    by rewrite printed_printed.
Qed.

End Program.

(** * Witnesses and counterexamples on the example worlds *)

Ltac answers_only_Exceptions :=
  let h := fresh "h" in
  let ev := fresh "ev" in
  let e := fresh "e" in
  let H := fresh "H" in
  intros h ev e H; destruct ev as [? []|]; simpl in H;
  repeat (match type of H with
          | context [if ?b then _ else _] => destruct b
          end);
  first [discriminate H | (injection H as <-; reflexivity)].

Lemma env_privacy_on_only_Exceptions : only_Exceptions env_privacy_on.
Proof. answers_only_Exceptions. Qed.

Lemma env_host_down_only_Exceptions (down : string) :
  only_Exceptions (env_host_down down).
Proof. answers_only_Exceptions. Qed.

Lemma env_preset_fails_only_Exceptions (failing : string) :
  only_Exceptions (env_preset_fails failing).
Proof. answers_only_Exceptions. Qed.

Lemma env_privacy_off_reliable : env_reliable env_privacy_off.
Proof. intros h ev; destruct ev as [? []|]; simpl; eauto. Qed.

(** C1, at the failing input: with privacy mode on, [calibrate] goes
    straight to [calibrateMotor]. *)
Lemma calibrate_skips_privacy_check_witness :
  run_op env_privacy_on repr_unused (session "192.168.1.100" "secret")
         OpCalibrate world0
  = (Ok (VDict []), logged world0 [EDevice "192.168.1.100" calibrateMotor]).
Proof.
  exact (proj2 (calibrate_skips_privacy_check env_privacy_on repr_unused
                  (session "192.168.1.100" "secret")
                  (mkTapo "192.168.1.100" "admin" "secret") world0 eq_refl)).
Defined.

(** C5 at 360, -1, 0 and 359. *)
Lemma move_step_angle_validation_witness :
  let cam := session "192.168.1.100" "secret" in
  (exists msg, move_step env_privacy_on cam 360 world0 = (Raise (ValueError msg), world0))
  /\ (exists msg, move_step env_privacy_on cam (-1) world0 = (Raise (ValueError msg), world0))
  /\ (exists g, trace (snd (move_step env_privacy_on cam 0 world0))
                = EDevice "192.168.1.100" getPrivacyMode :: g
                  ++ [EDevice "192.168.1.100" (moveMotorStep 0)])
  /\ (exists g, trace (snd (move_step env_privacy_on cam 359 world0))
                = EDevice "192.168.1.100" getPrivacyMode :: g
                  ++ [EDevice "192.168.1.100" (moveMotorStep 359)]).
Proof.
  intros cam.
  pose (t := mkTapo "192.168.1.100" "admin" "secret").
  split; [|split; [|split]].
  - apply (proj1 (move_step_angle_validation env_privacy_on cam 360 world0)). lia.
  - apply (proj1 (move_step_angle_validation env_privacy_on cam (-1) world0)). lia.
  - destruct (proj2 (move_step_angle_validation env_privacy_on cam 0 world0)
                t eq_refl ltac:(lia) env_privacy_on_only_Exceptions) as [g Hg].
    exists g. simpl in Hg. rewrite Hg. reflexivity.
  - destruct (proj2 (move_step_angle_validation env_privacy_on cam 359 world0)
                t eq_refl ltac:(lia) env_privacy_on_only_Exceptions) as [g Hg].
    exists g. simpl in Hg. rewrite Hg. reflexivity.
Defined.

(** C6, as stated, fails twice: when the privacy write raises there is no
    delay before the command, and [calibrate] is issued with no read at
    all. *)
Lemma privacy_guard_order_counterexample :
  let cam := session "192.168.1.100" "secret" in
  let h := "192.168.1.100" in
  (env_privacy_write_fails [] (EDevice h getPrivacyMode)
   = Ret (VDict [("enabled", VStr "on")])
   /\ trace (snd (move env_privacy_write_fails cam 10 0 world0))
      = [EDevice h getPrivacyMode; EDevice h (setPrivacyMode false);
         EDevice h (moveMotor 10 0)]
   /\ trace (snd (move env_privacy_write_fails cam 10 0 world0))
      <> [EDevice h getPrivacyMode; EDevice h (setPrivacyMode false); ESleep 1;
          EDevice h (moveMotor 10 0)])
  /\ (env_privacy_on [] (EDevice h getPrivacyMode)
      = Ret (VDict [("enabled", VStr "on")])
      /\ trace (snd (calibrate env_privacy_on cam world0))
         = [EDevice h calibrateMotor]).
Proof. repeat split; try reflexivity. discriminate. Qed.

(** C6 on the two example cameras: privacy on, then privacy off. *)
Lemma privacy_guard_event_order_witness :
  let cam := session "192.168.1.100" "secret" in
  let h := "192.168.1.100" in
  trace (snd (run_op env_privacy_on repr_unused cam (OpGotoPreset (VStr "3")) world0))
  = [EDevice h getPrivacyMode; EDevice h (setPrivacyMode false); ESleep 1;
     EDevice h (setPreset "3")]
  /\ trace (snd (run_op env_privacy_off repr_unused cam (OpMove 10 0) world0))
     = [EDevice h getPrivacyMode; EDevice h (moveMotor 10 0)].
Proof.
  intros cam h.
  pose (t := mkTapo "192.168.1.100" "admin" "secret").
  split.
  - apply (proj1 (privacy_guard_event_order env_privacy_on repr_unused cam t
                    (OpGotoPreset (VStr "3")) world0 [("enabled", VStr "on")]
                    eq_refl ltac:(discriminate) I eq_refl));
      [reflexivity | by eexists | by eexists].
  - apply (proj2 (privacy_guard_event_order env_privacy_off repr_unused cam t
                    (OpMove 10 0) world0 [("enabled", VStr "off")]
                    eq_refl ltac:(discriminate) I eq_refl)).
    discriminate.
Defined.

(** C7 on a camera whose privacy read times out: the move is issued and
    answered. *)
Lemma privacy_read_failure_not_propagated_witness :
  let cam := session "192.168.1.100" "secret" in
  let h := "192.168.1.100" in
  ensure_privacy_mode_off env_privacy_read_fails cam world0
  = (Ok false, logged world0 [EDevice h getPrivacyMode])
  /\ run_op env_privacy_read_fails repr_unused cam (OpMove 10 0) world0
     = (Ok (VDict []),
        logged world0 [EDevice h getPrivacyMode; EDevice h (moveMotor 10 0)]).
Proof.
  intros cam h.
  exact (privacy_read_failure_not_propagated env_privacy_read_fails repr_unused cam
           (mkTapo "192.168.1.100" "admin" "secret") (OpMove 10 0) world0
           (DeviceException "privacy read timed out")
           eq_refl ltac:(discriminate) I eq_refl eq_refl).
Defined.

(** C9 on presets 1, 2, 3: two full passes on a camera that answers, and
    on a camera that does not know preset 2 the stop at the second visit. *)
Lemma patrol_cycles_and_surfaces_errors_witness :
  let cam := session "192.168.1.100" "secret" in
  let h := "192.168.1.100" in
  let presets := [VStr "1"; VStr "2"; VStr "3"] in
  (exists tr,
     patrol_trace repr_unused h 10 (presets ++ presets) tr
     /\ start_patrol env_privacy_off repr_unused 2 cam presets 10 world0
        = (None, logged world0 tr))
  /\ (start_patrol (env_preset_fails "2") repr_unused 5 cam presets 10 world0
      = (Some (Raise (DeviceException "preset not found")),
         logged world0 [EDevice h getPrivacyMode; EDevice h (setPreset "1"); ESleep 10;
                        EDevice h getPrivacyMode; EDevice h (setPreset "2")])).
Proof.
  intros cam h presets.
  pose (t := mkTapo "192.168.1.100" "admin" "secret").
  split.
  - exact (proj1 (patrol_cycles_and_surfaces_errors env_privacy_off repr_unused cam t
                    presets 10 world0 eq_refl)
             env_privacy_off_reliable ltac:(lia) 2%nat).
  - exact (proj1 (proj2 (patrol_cycles_and_surfaces_errors (env_preset_fails "2")
                           repr_unused cam t presets 10 world0 eq_refl)
                    0%nat 5%nat [VStr "1"] (VStr "2") [VStr "3"]
                    (logged world0 [EDevice h getPrivacyMode; EDevice h (setPreset "1");
                                    ESleep 10])
                    (logged world0 [EDevice h getPrivacyMode; EDevice h (setPreset "1");
                                    ESleep 10; EDevice h getPrivacyMode;
                                    EDevice h (setPreset "2")])
                    (DeviceException "preset not found")
                    eq_refl eq_refl eq_refl eq_refl ltac:(lia))).
Defined.

(** C2, as stated, fails: of the requested cameras entrance and
    warehouse the second is unreachable, so [add_camera] does not register
    it, and [get_all_presets] has no entry for it. *)
Lemma get_all_presets_counterexample :
  let env := env_host_down "192.168.1.102" in
  let ids := ["entrance"; "warehouse"] in
  fst (add_camera env new_manager "entrance" "192.168.1.101" "admin" "secret" world0)
  = Ok (true, entrance_only)
  /\ fst (add_camera env entrance_only "warehouse" "192.168.1.102" "admin" "secret" world0)
     = Ok (false, entrance_only)
  /\ fst (get_all_presets env entrance_only world0) = Ok [("entrance", VDict [])]
  /\ ~ (forall k, k ∈ Dict.keys [("entrance", VDict [])] <-> k ∈ ids).
Proof.
  repeat split; try reflexivity.
  intros H. assert ("warehouse" ∈ Dict.keys [("entrance", VDict [])]) as Hin.
  { apply H. apply elem_of_cons. right. apply elem_of_cons. by left. }
  simpl in Hin. apply list_elem_of_singleton in Hin. discriminate.
Qed.

Lemma cams_A_C_unique_ids : NoDup (list_cameras cams_A_C).
Proof.
  unfold list_cameras. simpl. repeat constructor.
  - intros H. apply list_elem_of_singleton in H. discriminate.
  - intros H. by apply elem_of_nil in H.
Qed.

Lemma env_one_answers_presets_only_Exceptions :
  only_Exceptions env_one_answers_presets.
Proof. answers_only_Exceptions. Qed.

(** C2 as amended, on a registry of two cameras: A answers its presets,
    C is down. *)
Lemma get_all_presets_covers_registry_witness :
  exists d w',
    get_all_presets env_one_answers_presets cams_A_C world0 = (Ok d, w')
    /\ (forall k, k ∈ Dict.keys d <-> k ∈ ["A"; "C"])
    /\ NoDup (Dict.keys d)
    /\ Dict.get d "A" = Some (VDict [("1", VStr "door")])
    /\ Dict.get d "C" = Some (VDict []).
Proof.
  destruct (get_all_presets_covers_registry env_one_answers_presets cams_A_C
              world0 env_one_answers_presets_only_Exceptions)
    as (d & w' & Hrun & Hkeys & Hnd & Hval).
  exists d, w'. split; [exact Hrun|]. split; [exact Hkeys|]. split; [exact Hnd|].
  split.
  - apply (proj2 (Hval cams_A_C_unique_ids [] "A"
                    (session "192.168.1.101" "secret")
                    [("C", session "192.168.1.103" "secret")]
                    (mkTapo "192.168.1.101" "admin" "secret") eq_refl eq_refl)
             (VDict [("1", VStr "door")]) 1%nat); reflexivity.
  - apply (proj1 (Hval cams_A_C_unique_ids
                    [("A", session "192.168.1.101" "secret")] "C"
                    (session "192.168.1.103" "secret") []
                    (mkTapo "192.168.1.103" "admin" "secret") eq_refl eq_refl)
             (DeviceException "host unreachable")); reflexivity.
Defined.

(** C8, as stated, fails: adding under the registered id entrance returns
    [True] and the session of entrance now aims at the new host. *)
Lemma add_camera_duplicate_counterexample :
  get_camera entrance_only "entrance" = Some (session "192.168.1.101" "secret")
  /\ fst (add_camera env_privacy_on entrance_only
            "entrance" "192.168.1.150" "admin" "other" world0)
     = Ok (true, mkManager [("entrance", session "192.168.1.150" "other")]
                           "cameras_config.json")
  /\ session "192.168.1.150" "other" <> session "192.168.1.101" "secret".
Proof. repeat split; try reflexivity. discriminate. Qed.

(** C8 as amended, on the same input: the camera answers, so the call
    returns [True] and entrance now aims at the new host. *)
Lemma add_camera_existing_id_overwrites_witness :
  exists self',
    add_camera env_privacy_on entrance_only
      "entrance" "192.168.1.150" "admin" "other" world0
    = (Ok (true, self'),
       logged world0 [EDevice "192.168.1.150" (Tapo_init "admin" "other");
                      EDevice "192.168.1.150" getBasicInfo;
                      EDevice "192.168.1.150" getMotorCapability])
    /\ get_camera self' "entrance" = Some (session "192.168.1.150" "other")
    /\ host (session "192.168.1.150" "other") = "192.168.1.150"
    /\ user (session "192.168.1.150" "other") = "admin"
    /\ password (session "192.168.1.150" "other") = "other"
    /\ list_cameras self' = list_cameras entrance_only
    /\ (forall id, id <> "entrance" ->
          get_camera self' id = get_camera entrance_only id).
Proof.
  exact (add_camera_existing_id_overwrites env_privacy_on entrance_only
           "entrance" "192.168.1.150" "admin" "other"
           (session "192.168.1.101" "secret") world0 eq_refl).
Defined.

(** C10 on two registries that differ in the password only. *)
Lemma save_config_omits_passwords_witness :
  let m1 := mkManager [("entrance", session "192.168.1.101" "secret")] "cameras_config.json" in
  let m2 := mkManager [("entrance", session "192.168.1.101" "hunter2")] "cameras_config.json" in
  save_config m1 None world0 = save_config m2 None world0
  /\ exists name doc,
       files (snd (save_config m1 None world0)) !! name = Some (FJson (VDict doc))
       /\ name = "cameras_config.json"
       /\ forall id v, (id, v) ∈ doc ->
            exists c, (id, c) ∈ cameras m1
                      /\ v = VDict [("host", VStr (host c)); ("user", VStr (user c))].
Proof.
  intros m1 m2.
  exact (save_config_omits_passwords m1 m2 None world0 eq_refl eq_refl).
Defined.

(** C3 on the first scene of the demo, no scene file being there yet. *)
Lemma create_scene_round_trip_witness :
  let m := [("entrance", "1"); ("warehouse", "1"); ("office", "1")] in
  exists w' d',
    create_scene "day" m world0 = (Ok tt, w')
    /\ json_load scenes_file w' = (Ok (VDict d'), w')
    /\ Dict.get d' "day" = Some (str_dict m)
    /\ (forall other, other <> "day" -> Dict.get d' other = Dict.get (@nil (string * pyval)) other)
    /\ (Forall (fun item : string * pyval => is_dict (snd item)) [] ->
        exists out before after,
          list_scenes w' = (Ok (Dict.keys d'), printed w' out)
          /\ "day" ∈ Dict.keys d'
          /\ out = before ++ scene_lines "day" (str_items m) ++ after).
Proof.
  intros m. exact (create_scene_round_trip "day" m [] world0 eq_refl).
Defined.

(** C4 on the scene of the claim: A and C registered, B not, and the
    camera of A not knowing preset 1. *)
Lemma apply_scene_isolates_devices_witness :
  exists tr out,
    apply_scene (env_preset_fails "1") repr_unused cams_A_C "day" world_with_scene
    = (Ok tt, printed (logged world_with_scene tr) out)
    /\ goto_calls tr = [("192.168.1.101", "1"); ("192.168.1.103", "3")]
    /\ not_connected_reports out = ["B"]
    /\ device_reports out = ["A"; "B"; "C"].
Proof.
  exact (apply_scene_isolates_devices (env_preset_fails "1") repr_unused cams_A_C
           "day" [("A", "1"); ("B", "2"); ("C", "3")]
           [("day", str_dict [("A", "1"); ("B", "2"); ("C", "3")])]
           world_with_scene eq_refl eq_refl
           (env_preset_fails_only_Exceptions "1")).
Defined.

(** * Witnesses of the further properties *)

Lemma env_basic_info_fails_only_Exceptions : only_Exceptions env_basic_info_fails.
Proof. answers_only_Exceptions. Qed.

Lemma env_privacy_off_only_Exceptions : only_Exceptions env_privacy_off.
Proof. answers_only_Exceptions. Qed.

Lemma env_privacy_off_always_connects : always_connects env_privacy_off.
Proof. intros c w. eexists _, _. reflexivity. Qed.

(** X1 on a controller that was built and never connected. *)
Lemma unconnected_operation_raises_without_contact_witness :
  run_op env_privacy_on repr_unused (new_controller "192.168.1.100" "admin" "secret")
         (OpMoveStep 90) world0
  = (Raise AttributeError, world0).
Proof.
  apply (unconnected_operation_raises_without_contact env_privacy_on repr_unused
           (new_controller "192.168.1.100" "admin" "secret") (OpMoveStep 90) world0).
  - reflexivity.
  - simpl. lia.
Defined.

(** X2 on an unreachable host. *)
Lemma connect_unreachable_host_witness :
  let c := new_controller "192.168.1.100" "admin" "secret" in
  connect (env_host_down "192.168.1.100") c world0
  = (Ok (false, c),
     logged world0 [EDevice "192.168.1.100" (Tapo_init "admin" "secret")]).
Proof.
  intros c.
  exact (connect_unreachable_host (env_host_down "192.168.1.100") c world0
           (DeviceException "host unreachable") eq_refl eq_refl).
Defined.

(** X3 on a camera that refuses [getBasicInfo]. *)
Lemma connect_basic_info_failure_keeps_client_witness :
  let c := new_controller "192.168.1.100" "admin" "secret" in
  connect env_basic_info_fails c world0
  = (Ok (false, mkController "192.168.1.100" "admin" "secret"
                  (Some (mkTapo "192.168.1.100" "admin" "secret")) None),
     logged world0 [EDevice "192.168.1.100" (Tapo_init "admin" "secret");
                    EDevice "192.168.1.100" getBasicInfo]).
Proof.
  intros c.
  exact (connect_basic_info_failure_keeps_client env_basic_info_fails c world0
           (VDict []) (DeviceException "basic info refused")
           eq_refl eq_refl eq_refl).
Defined.

(** X4 on a camera without a motor. *)
Lemma connect_survives_motor_capability_witness :
  let c := new_controller "192.168.1.100" "admin" "secret" in
  exists c',
    connect env_motor_capability_fails c world0
    = (Ok (true, c'),
       logged world0 [EDevice "192.168.1.100" (Tapo_init "admin" "secret");
                      EDevice "192.168.1.100" getBasicInfo;
                      EDevice "192.168.1.100" getMotorCapability])
    /\ tapo c' = Some (mkTapo "192.168.1.100" "admin" "secret")
    /\ motor_capability c' = None.
Proof.
  intros c.
  destruct (connect_survives_motor_capability env_motor_capability_fails c world0
              (VDict []) (VDict []) eq_refl eq_refl)
    as (c' & Hconn & _ & Ht & Hkeep & _).
  - exists (VDict []), []. split; reflexivity.
  - intros e H. injection H as <-. reflexivity.
  - exists c'. split; [exact Hconn|]. split; [exact Ht|].
    exact (Hkeep (DeviceException "no motor") eq_refl).
Defined.


(** X7 with a dwell of -5 seconds. *)
Lemma patrol_negative_interval_stops_after_first_move_witness :
  let cam := session "192.168.1.100" "secret" in
  let h := "192.168.1.100" in
  start_patrol env_privacy_off repr_unused 4 cam [VStr "1"; VStr "2"] (-5) world0
  = (Some (Raise (ValueError "sleep length must be non-negative")),
     logged world0 [EDevice h getPrivacyMode; EDevice h (setPreset "1")]).
Proof.
  intros cam h.
  exact (patrol_negative_interval_stops_after_first_move env_privacy_off repr_unused
           cam (VStr "1") [VStr "2"] (-5) 3%nat (VDict []) world0
           (logged world0 [EDevice h getPrivacyMode; EDevice h (setPreset "1")])
           ltac:(lia) eq_refl).
Defined.

(** X8: adding warehouse to a registry that holds entrance only. *)
Lemma add_camera_new_id_appends_witness :
  exists self',
    add_camera env_privacy_on entrance_only
      "warehouse" "192.168.1.102" "admin" "secret" world0
    = (Ok (true, self'),
       logged world0 [EDevice "192.168.1.102" (Tapo_init "admin" "secret");
                      EDevice "192.168.1.102" getBasicInfo;
                      EDevice "192.168.1.102" getMotorCapability])
    /\ list_cameras self' = ["entrance"; "warehouse"]
    /\ get_camera self' "warehouse" = Some (session "192.168.1.102" "secret")
    /\ host (session "192.168.1.102" "secret") = "192.168.1.102"
    /\ user (session "192.168.1.102" "secret") = "admin"
    /\ password (session "192.168.1.102" "secret") = "secret"
    /\ tapo (session "192.168.1.102" "secret")
       = Some (mkTapo "192.168.1.102" "admin" "secret")
    /\ (forall id, id <> "warehouse" ->
          get_camera self' id = get_camera entrance_only id).
Proof.
  exact (add_camera_new_id_appends env_privacy_on entrance_only
           "warehouse" "192.168.1.102" "admin" "secret" world0 eq_refl).
Defined.

Lemma cams_A_C_registry_ok : registry_ok cams_A_C.
Proof.
  split.
  - unfold list_cameras. simpl. repeat constructor.
    + intros H. apply list_elem_of_singleton in H. discriminate.
    + intros H. by apply elem_of_nil in H.
  - intros id c Hin. simpl in Hin.
    apply elem_of_cons in Hin as [[= -> ->]|Hin]; [reflexivity|].
    apply list_elem_of_singleton in Hin as [= -> ->]. reflexivity.
Qed.

(** X9 on the registry of A and C: after adding B, and after removing A. *)
Lemma registry_invariant_kept_witness :
  match add_camera env_privacy_on cams_A_C "B" "192.168.1.102" "admin" "secret"
          world0 with
  | (Ok (_, self'), _) => registry_ok self'
  | (Raise _, _) => True
  end
  /\ registry_ok (remove_camera cams_A_C "A").
Proof.
  split.
  - exact (proj1 (proj2 (registry_invariant_kept env_privacy_on)) cams_A_C
             "B" "192.168.1.102" "admin" "secret" world0 cams_A_C_registry_ok).
  - exact (proj2 (proj2 (registry_invariant_kept env_privacy_on)) cams_A_C "A"
             cams_A_C_registry_ok).
Defined.

(** X10: removing A from the registry of A and C. *)
Lemma remove_camera_forgets_only_that_id_witness :
  get_camera (remove_camera cams_A_C "A") "A" = None
  /\ (forall id, id <> "A" ->
        get_camera (remove_camera cams_A_C "A") id = get_camera cams_A_C id)
  /\ list_cameras (remove_camera cams_A_C "A")
     = filter (fun id => id <> "A") (list_cameras cams_A_C)
  /\ (get_camera cams_A_C "A" = None -> remove_camera cams_A_C "A" = cams_A_C).
Proof.
  exact (remove_camera_forgets_only_that_id cams_A_C "A"
           (proj1 cams_A_C_registry_ok)).
Defined.

(** X11 on the registry of A and C, C being unreachable. *)
Lemma calibrate_all_one_call_per_camera_witness :
  calibrate_all (env_host_down "192.168.1.103") cams_A_C world0
  = (Ok tt, logged world0 [EDevice "192.168.1.101" calibrateMotor;
                           EDevice "192.168.1.103" calibrateMotor]).
Proof.
  exact (calibrate_all_one_call_per_camera (env_host_down "192.168.1.103") cams_A_C
           world0 (env_host_down_only_Exceptions "192.168.1.103")).
Defined.

(** X12 on the same registry. *)
Lemma privacy_and_tracking_batches_witness :
  let env := env_host_down "192.168.1.103" in
  let a := "192.168.1.101" in
  let c := "192.168.1.103" in
  enable_privacy_all env cams_A_C world0
  = (Ok tt, logged world0 [EDevice a (setPrivacyMode true);
                           EDevice c (setPrivacyMode true)])
  /\ disable_privacy_all env cams_A_C world0
     = (Ok tt, logged world0 [EDevice a (setPrivacyMode false);
                              EDevice c (setPrivacyMode false)])
  /\ set_auto_track_all env cams_A_C true world0
     = (Ok tt, logged world0 [EDevice a (setAutoTrackTarget true);
                              EDevice c (setAutoTrackTarget true)]).
Proof.
  intros env a c.
  exact (privacy_and_tracking_batches env cams_A_C true world0
           (env_host_down_only_Exceptions "192.168.1.103")).
Defined.

(** X13 on the same registry: A is down, C is still asked. *)
Lemma goto_preset_all_reaches_every_camera_witness :
  exists tr,
    goto_preset_all (env_host_down "192.168.1.101") repr_unused cams_A_C (VStr "2")
                    world0
    = (Ok tt, logged world0 tr)
    /\ goto_calls tr = [("192.168.1.101", "2"); ("192.168.1.103", "2")].
Proof.
  exact (goto_preset_all_reaches_every_camera (env_host_down "192.168.1.101")
           repr_unused cams_A_C (VStr "2") world0
           (env_host_down_only_Exceptions "192.168.1.101")).
Defined.

(** X14 on the registry of A and C: A answers its presets, C is down. *)
Lemma get_all_presets_values_witness :
  exists d,
    get_all_presets env_one_answers_presets cams_A_C world0
    = (Ok d, logged world0 [EDevice "192.168.1.101" getPresets;
                            EDevice "192.168.1.103" getPresets])
    /\ Dict.get d "A" = Some (VDict [("1", VStr "door")])
    /\ Dict.get d "C" = Some (VDict []).
Proof.
  destruct (get_all_presets_values env_one_answers_presets cams_A_C world0
              env_one_answers_presets_only_Exceptions cams_A_C_unique_ids)
    as (d & Hrun & Hturn).
  exists d. split; [exact Hrun|]. split.
  - exact (Hturn [] "A" (session "192.168.1.101" "secret")
             [("C", session "192.168.1.103" "secret")] eq_refl).
  - exact (Hturn [("A", session "192.168.1.101" "secret")] "C"
             (session "192.168.1.103" "secret") [] eq_refl).
Defined.

(** X15 on a scene file that is not JSON. *)
Lemma create_scene_rejects_corrupt_document_witness :
  exists e,
    create_scene "day" [("entrance", "1")] world_corrupt_scenes
    = (Raise e, world_corrupt_scenes)
    /\ (e = JSONDecodeError \/ e = TypeError).
Proof.
  exact (create_scene_rejects_corrupt_document "day" [("entrance", "1")]
           world_corrupt_scenes eq_refl).
Defined.

(** X16 on the stored scene day. *)
Lemma create_scene_overwrites_witness :
  snd (create_scene "day" [("A", "7")]
         (snd (create_scene "day" [("A", "4"); ("B", "5")] world_with_scene)))
  = snd (create_scene "day" [("A", "7")] world_with_scene).
Proof.
  exact (create_scene_overwrites "day" [("A", "4"); ("B", "5")] [("A", "7")]
           [("day", str_dict [("A", "1"); ("B", "2"); ("C", "3")])]
           world_with_scene eq_refl).
Defined.

(** X18 with no scene file, and with a scene file that lacks night. *)
Lemma apply_scene_without_scene_witness :
  apply_scene env_privacy_on repr_unused cams_A_C "day" world0
  = (Ok tt, printed world0 [OutScenesFileMissing])
  /\ apply_scene env_privacy_on repr_unused cams_A_C "night" world_with_scene
     = (Ok tt, printed world_with_scene [OutSceneMissing "night"]).
Proof.
  split.
  - exact (proj1 (apply_scene_without_scene env_privacy_on repr_unused cams_A_C
                    "day" world0) eq_refl).
  - exact (proj2 (apply_scene_without_scene env_privacy_on repr_unused cams_A_C
                    "night" world_with_scene)
             [("day", str_dict [("A", "1"); ("B", "2"); ("C", "3")])]
             eq_refl eq_refl).
Defined.

(** X19: a scene for A and B created on an empty disk and applied to the
    registry of A and C. *)
Lemma create_then_apply_scene_witness :
  exists w1 tr out,
    create_scene "evening" [("A", "4"); ("B", "5")] world0 = (Ok tt, w1)
    /\ apply_scene env_privacy_off repr_unused cams_A_C "evening" w1
       = (Ok tt, printed (logged w1 tr) out)
    /\ goto_calls tr = [("192.168.1.101", "4")]
    /\ not_connected_reports out = ["B"]
    /\ device_reports out = ["A"; "B"].
Proof.
  exact (create_then_apply_scene env_privacy_off repr_unused cams_A_C "evening"
           [("A", "4"); ("B", "5")] [] world0 eq_refl
           env_privacy_off_only_Exceptions).
Defined.

(** X20: the registry of A and C saved, then loaded with another
    password. *)
Lemma save_then_load_config_round_trip_witness :
  exists loaded w',
    load_config env_privacy_off untyped_refuses new_manager (Some "cams.json") "hunter2"
      (snd (save_config cams_A_C (Some "cams.json") world0))
    = ((Ok tt, loaded), w')
    /\ public_view (cameras loaded)
       = [("A", ("192.168.1.101", "admin")); ("C", ("192.168.1.103", "admin"))]
    /\ (forall id c, (id, c) ∈ cameras loaded ->
          password c = "hunter2" /\ tapo c = Some (client_of c)).
Proof.
  exact (save_then_load_config_round_trip env_privacy_off untyped_refuses cams_A_C
           "cams.json" "hunter2" world0 (proj1 cams_A_C_registry_ok)
           env_privacy_off_always_connects).
Defined.

(** X21: no config file; and a config whose second entry has no host. *)
Lemma load_config_missing_file_and_missing_host_witness :
  load_config env_privacy_off untyped_refuses new_manager
    (Some "cameras_config.json") "secret" world0
  = ((Ok tt, new_manager), world0)
  /\ exists w1,
       load_config env_privacy_off untyped_refuses new_manager
         (Some "cameras_config.json") "secret" world_config_without_host
       = ((Raise (KeyError "host"), entrance_only), w1).
Proof.
  split.
  - exact (proj1 (load_config_missing_file_and_missing_host env_privacy_off
                    untyped_refuses new_manager "cameras_config.json" "secret"
                    world0) eq_refl).
  - eexists.
    exact (proj2 (load_config_missing_file_and_missing_host env_privacy_off
                    untyped_refuses new_manager "cameras_config.json" "secret"
                    world_config_without_host)
             [("entrance", VDict [("host", VStr "192.168.1.101");
                                  ("user", VStr "admin")])]
             "warehouse" [("user", VStr "admin")] [] entrance_only _
             eq_refl eq_refl eq_refl).
Defined.

(** X22 on a move with privacy on: four events, all on the camera's host. *)
Lemma operation_confined_to_own_camera_witness :
  let cam := session "192.168.1.100" "secret" in
  exists evs,
    trace (snd (run_op env_privacy_on repr_unused cam (OpMove 10 0) world0)) = evs
    /\ (length evs <= 4)%nat
    /\ Forall (fun ev => match ev with
                         | EDevice h c => h = "192.168.1.100" /\ c <> setPrivacyMode true
                         | ESleep seconds => seconds = 1
                         end) evs.
Proof.
  intros cam.
  exact (operation_confined_to_own_camera env_privacy_on repr_unused cam
           (mkTapo "192.168.1.100" "admin" "secret") (OpMove 10 0) world0
           eq_refl I).
Defined.

(** X23 with no scene file, with a corrupt one, and with the scene day. *)
Lemma list_scenes_edges_witness :
  list_scenes world0 = (Ok [], printed world0 [OutNoScenes])
  /\ list_scenes world_corrupt_scenes = (Raise JSONDecodeError, world_corrupt_scenes)
  /\ exists out,
       list_scenes world_with_scene
       = (Ok ["day"], printed world_with_scene (OutScenesHeader 1 :: out)).
Proof.
  split; [|split].
  - exact (proj1 (list_scenes_edges world0) eq_refl).
  - exact (proj1 (proj2 (list_scenes_edges world_corrupt_scenes)) eq_refl).
  - apply (proj2 (proj2 (list_scenes_edges world_with_scene))
             [("day", str_dict [("A", "1"); ("B", "2"); ("C", "3")])] eq_refl).
    repeat constructor. simpl. by eexists.
Defined.
